(** * A shallow embedding of [djvu_convert.py]

    The script turns DjVu documents into CBZ archives.  It talks to three
    external programs ([djvused], [ddjvu] and, through Pillow, an image
    re-encoder) and to the file system.  The embedding keeps the control
    flow of the four Python functions and threads an explicit [world]
    (file system, console, process log) through a small state and
    exception monad.  Everything the script cannot decide by itself (what a
    subprocess answers, whether a library call raises, which name
    [tempfile.mkdtemp] picks, what [os.walk] finds) is read from an
    environment record [Env]. *)

From Stdlib Require Import ZArith NArith Ascii String DecimalString DecimalN.
From stdpp Require Import gmap strings list sorting fin_maps fin_sets.

Local Open Scope N_scope.

(** ** Python string primitives *)

Module Py.

Definition newline : ascii := "010"%char.

(** [c.isspace()] for the code points below 256. *)
Definition isspace (c : ascii) : bool :=
  let n := N_of_ascii c in
  ((9 <=? n) && (n <=? 13)) || ((28 <=? n) && (n <=? 32))
  || (n =? 133) || (n =? 160).

(** ASCII decimal digits. *)
Definition digit_value (c : ascii) : option N :=
  let n := N_of_ascii c in
  if (48 <=? n) && (n <=? 57) then Some (n - 48) else None.

(** [c.isdigit()]: the decimal digits and, below 256, the superscripts
    two, three and one, which [int] refuses. *)
Definition isdigit_char (c : ascii) : bool :=
  let n := N_of_ascii c in
  ((48 <=? n) && (n <=? 57)) || (n =? 178) || (n =? 179) || (n =? 185).

Fixpoint all_chars (p : ascii → bool) (s : string) : bool :=
  match s with
  | EmptyString => true
  | String c s' => p c && all_chars p s'
  end.

(** [s.isdigit()]: at least one character, all of them digits. *)
Definition isdigit (s : string) : bool :=
  match s with
  | EmptyString => false
  | _ => all_chars isdigit_char s
  end.

Fixpoint int_from (acc : N) (s : string) : option N :=
  match s with
  | EmptyString => Some acc
  | String c s' =>
      match digit_value c with
      | Some d => int_from (10 * acc + d) s'
      | None => None
      end
  end.

(** [int(s)] on a string that passed [isdigit]; [None] is [ValueError]. *)
Definition int (s : string) : option N :=
  match s with
  | EmptyString => None
  | _ => int_from 0 s
  end.

Fixpoint lstrip (s : string) : string :=
  match s with
  | EmptyString => EmptyString
  | String c s' => if isspace c then lstrip s' else s
  end.

(** [s.strip()] *)
Definition strip (s : string) : string :=
  String.rev (lstrip (String.rev (lstrip s))).

(** [s.startswith(p)] *)
Definition startswith (p s : string) : bool := String.prefix p s.

(** [s.endswith(suffix)] *)
Fixpoint endswith (suffix s : string) : bool :=
  if String.eqb s suffix then true
  else match s with
       | EmptyString => false
       | String _ s' => endswith suffix s'
       end.

Definition lower_char (c : ascii) : ascii :=
  let n := N_of_ascii c in
  if (65 <=? n) && (n <=? 90) then ascii_of_N (n + 32) else c.

(** [s.lower()] on ASCII letters. *)
Fixpoint lower (s : string) : string :=
  match s with
  | EmptyString => EmptyString
  | String c s' => String (lower_char c) (lower s')
  end.

Fixpoint split_from (sep : ascii) (cur : string) (s : string) : list string :=
  match s with
  | EmptyString => [String.rev cur]
  | String c s' =>
      if Ascii.eqb c sep then String.rev cur :: split_from sep EmptyString s'
      else split_from sep (String c cur) s'
  end.

(** [s.split(sep)] for a one-character separator. *)
Definition split (sep : ascii) (s : string) : list string :=
  split_from sep EmptyString s.

Fixpoint drop (n : nat) (s : string) : string :=
  match n, s with
  | O, _ => s
  | S n', String _ s' => drop n' s'
  | S _, EmptyString => EmptyString
  end.

Fixpoint replace_fuel (fuel : nat) (old new s : string) : string :=
  match fuel with
  | O => s
  | S fuel' =>
      if String.prefix old s
      then new +:+ replace_fuel fuel' old new (drop (String.length old) s)
      else match s with
           | EmptyString => EmptyString
           | String c s' => String c (replace_fuel fuel' old new s')
           end
  end.

(** [s.replace(old, new)] for a non-empty [old]: the occurrences are
    found from left to right and do not overlap. *)
Definition replace (old new s : string) : string :=
  replace_fuel (S (String.length s)) old new s.

(** [str(n)] for a non-negative integer. *)
Definition str (n : N) : string := NilEmpty.string_of_uint (N.to_uint n).

(** [str(z)] for any integer. *)
Definition str_int (z : Z) : string :=
  if (z <? 0)%Z then "-" +:+ str (Z.to_N (- z)) else str (Z.to_N z).

Fixpoint zeros (k : nat) : string :=
  match k with
  | O => EmptyString
  | S k' => String "0" (zeros k')
  end.

(** [f"{n:04d}"]: decimal, padded with zeros on the left to four places,
    longer when the number needs more. *)
Definition fmt_04d (n : N) : string :=
  let s := str n in zeros (4 - String.length s) +:+ s.

(** [range(lo, lo + count)] *)
Fixpoint range_from (lo : N) (count : nat) : list N :=
  match count with
  | O => []
  | S c => lo :: range_from (N.succ lo) c
  end.

(** [range(lo, hi)] *)
Definition range (lo hi : N) : list N := range_from lo (N.to_nat (hi - lo)).

End Py.

(** ** [os.path] on POSIX-style paths *)

Module Path.

Definition sep : ascii := "/"%char.

Fixpoint last_char (s : string) : option ascii :=
  match s with
  | EmptyString => None
  | String c EmptyString => Some c
  | String _ s' => last_char s'
  end.

(** The prefix under which the entries of directory [d] live. *)
Definition dirprefix (d : string) : string :=
  match last_char d with
  | None => d
  | Some c => if Ascii.eqb c sep then d else d +:+ "/"
  end.

(** [os.path.join(a, b)] for a relative [b]. *)
Definition join (a b : string) : string := dirprefix a +:+ b.

Fixpoint has_sep (s : string) : bool :=
  match s with
  | EmptyString => false
  | String c s' => Ascii.eqb c sep || has_sep s'
  end.

(** [p] lies strictly below directory [d]. *)
Definition under (d p : string) : bool :=
  String.prefix (dirprefix d) p && negb (String.eqb p (dirprefix d)).

(** The name of [p] inside directory [d], when [p] is an entry of [d]. *)
Definition entry_name (d p : string) : option string :=
  if under d p then
    let f := Py.drop (String.length (dirprefix d)) p in
    if has_sep f then None else Some f
  else None.

Fixpoint all_dots (s : string) : bool :=
  match s with
  | EmptyString => true
  | String c s' => Ascii.eqb c "."%char && all_dots s'
  end.

(** The scan of [genericpath._splitext] over a file name without
    separators.  [r] is the part of the name still to be read, reversed,
    and [ext] the part already read from the end; the extension starts
    at the last dot that has a character other than a dot somewhere
    before it. *)
Fixpoint splitext_rev (r ext : string) : string * string :=
  match r with
  | EmptyString => (ext, EmptyString)
  | String c r' =>
      if Ascii.eqb c "."%char
      then if all_dots r' then (String.rev r +:+ ext, EmptyString)
           else (String.rev r', String c ext)
      else splitext_rev r' (String c ext)
  end.

(** [os.path.splitext(name)] *)
Definition splitext (name : string) : string * string :=
  splitext_rev (String.rev name) EmptyString.

End Path.

(** ** The world the script runs in *)

Inductive format := PNG | TIFF.

(** What a file holds: a page image written by the renderer or by the
    re-encoder, a zip archive with its entries in the order they were
    written, or anything else. *)
#[warnings="-register-all"] Inductive content :=
| Raster (doc : string) (page : N) (fmt : format)
| Archive (entries : list (string * content))
| Blob (tag : N).

(** The console and the process log keep the latest line first. *)
Record world := World {
  files : gmap string content;
  dirs : gset string;
  console : list string;
  processes : list (list string)
}.

Definition exn := string.

(** How a call of [subprocess.run] ends: it raises, or the process
    completes with an exit status and its standard output, having written
    its output file or not. *)
Inductive proc_outcome :=
| Raises (e : exn)
| Completes (returncode : Z) (stdout : string) (wrote : bool).

Record Env := {
  subprocess_result : list string → proc_outcome;
  pil_save_error : string → string → option exn;
  os_remove_error : string → option exn;
  mkdtemp_name : gmap string content → gset string → string;
  zip_open_error : string → option exn;
  zip_write_error : string → string → option exn;
  os_walk : string → list (list string * list string);
  pil_importable : bool
}.

(** ** State and exception monad *)

Inductive outcome (A : Type) :=
| Ret (a : A)
| Exc (e : exn).
Arguments Ret {A} a.
Arguments Exc {A} e.

Definition M (A : Type) : Type := world → outcome A * world.

Global Instance M_ret : MRet M := λ A a w, (Ret a, w).

Global Instance M_bind : MBind M := λ A B f m w,
  match m w with
  | (Ret a, w') => f a w'
  | (Exc e, w') => (Exc e, w')
  end.

Definition raise {A} (e : exn) : M A := λ w, (Exc e, w).

(** [try: body  except Exception as e: handler e] *)
Definition try_except {A} (body : M A) (handler : exn → M A) : M A := λ w,
  match body w with
  | (Ret a, w') => (Ret a, w')
  | (Exc e, w') => handler e w'
  end.

(** [try: body  finally: cleanup]; the result of [body], returned or
    raised, is kept unless [cleanup] raises itself. *)
Definition try_finally {A} (body : M A) (cleanup : M unit) : M A := λ w,
  match body w with
  | (r, w') =>
      match cleanup w' with
      | (Ret _, w'') => (r, w'')
      | (Exc e, w'') => (Exc e, w'')
      end
  end.

Definition modify (f : world → world) : M unit := λ w, (Ret tt, f w).

Definition gets {A} (f : world → A) : M A := λ w, (Ret (f w), w).

Definition result {A} (r : outcome A * world) : outcome A := fst r.
Definition final {A} (r : outcome A * world) : world := snd r.

(** ** File-system and console primitives *)

Definition set_files (f : gmap string content → gmap string content)
    (w : world) : world :=
  World (f (files w)) (dirs w) (console w) (processes w).

Definition set_dirs (f : gset string → gset string) (w : world) : world :=
  World (files w) (f (dirs w)) (console w) (processes w).

Definition say (line : string) (w : world) : world :=
  World (files w) (dirs w) (line :: console w) (processes w).

(** [print(line)] *)
Definition print (line : string) : M unit := modify (say line).

Definition spawned (cmd : list string) (w : world) : world :=
  World (files w) (dirs w) (console w) (cmd :: processes w).

(** A directory named with a trailing [/.] is the directory itself. *)
Definition normdir (p : string) : string :=
  if Py.endswith "/." p then
    match String.rev p with
    | String _ (String _ r) =>
        match r with EmptyString => p | _ => String.rev r end
    | _ => p
    end
  else p.

(** [os.path.exists(p)] *)
Definition path_exists (p : string) (w : world) : bool :=
  bool_decide (is_Some (files w !! p)) || bool_decide (normdir p ∈ dirs w).

Definition os_path_exists (p : string) : M bool := gets (path_exists p).

(** The proper ancestors of a path: every prefix that ends right before
    a separator. *)
Fixpoint ancestors_from (seen : string) (p : string) : list string :=
  match p with
  | EmptyString => []
  | String c p' =>
      (if Ascii.eqb c Path.sep
       then match seen with EmptyString => [] | _ => [String.rev seen] end
       else [])
      ++ ancestors_from (String c seen) p'
  end.

Definition ancestors (p : string) : list string := ancestors_from EmptyString p.

(** [os.makedirs(p)]: the leaf and every missing directory above it. *)
Definition os_makedirs (p : string) : M unit :=
  modify (set_dirs (λ ds, {[normdir p]} ∪ list_to_set (ancestors (normdir p)) ∪ ds)).

(** The name [tempfile.mkdtemp] picks, given what the file system
    holds. *)
Definition scratch_name (E : Env) (w : world) : string :=
  mkdtemp_name E (files w) (dirs w).

(** [tempfile.mkdtemp()] *)
Definition mkdtemp (E : Env) : M string := λ w,
  let d := scratch_name E w in
  (Ret d, set_dirs (λ ds, {[d]} ∪ ds) w).

Definition remove_tree (d : string) (w : world) : world :=
  World (filter (λ kv, Path.under d kv.1 = false) (files w))
        (filter (λ p, p ≠ d ∧ Path.under d p = false) (dirs w))
        (console w) (processes w).

(** [shutil.rmtree(d)]: the directory goes with everything below it. *)
Definition rmtree (d : string) : M unit := modify (remove_tree d).

(** [os.listdir(d)]: the names of the entries of [d], in no particular
    order. *)
Definition listdir (d : string) (w : world) : list string :=
  elements (set_omap (Path.entry_name d) (dom (files w)) : gset string).

(** [os.remove(p)] *)
Definition os_remove (E : Env) (p : string) : M unit := λ w,
  match os_remove_error E p with
  | Some e => (Exc e, w)
  | None =>
      match files w !! p with
      | Some _ => (Ret tt, set_files (delete p) w)
      | None => (Exc "FileNotFoundError", w)
      end
  end.

(** [subprocess.run(cmd, capture_output=True, text=True)].  [target] is
    the file the command is asked to produce, with what it would hold. *)
Definition subprocess_run (E : Env) (cmd : list string)
    (target : option (string * content)) : M (Z * string) := λ w,
  let w1 := spawned cmd w in
  match subprocess_result E cmd with
  | Raises e => (Exc e, w1)
  | Completes returncode stdout wrote =>
      (Ret (returncode, stdout),
       match target with
       | Some (p, c) => if wrote then set_files (insert p c) w1 else w1
       | None => w1
       end)
  end.

(** [Image.open(src).save(dst)]: only an image written by the renderer
    can be opened; the copy is a PNG. *)
Definition pil_reencode (E : Env) (src dst : string) : M unit := λ w,
  match files w !! src with
  | Some (Raster doc page _) =>
      match pil_save_error E src dst with
      | Some e => (Exc e, w)
      | None => (Ret tt, set_files (insert dst (Raster doc page PNG)) w)
      end
  | Some _ => (Exc "UnidentifiedImageError", w)
  | None => (Exc "FileNotFoundError", w)
  end.

(** ** The script *)

Definition DDJVU_PATH : string := "C:\Program Files (x86)\DjVuLibre\ddjvu.exe".
Definition DJVUSED_PATH : string := "C:\Program Files (x86)\DjVuLibre\djvused.exe".

Section Script.

Context (E : Env).

(** [int(s)], raising [ValueError] where Python does. *)
Definition py_int (s : string) : M N :=
  match Py.int s with
  | Some n => mret n
  | None => raise "invalid literal for int() with base 10"
  end.

(** The first [try] block of [get_page_count]: [Some n] when it
    returns [n], [None] when control falls through to the next block. *)
Definition count_with_djvused (input_file : string) : M (option N) :=
  try_except
    (process ← subprocess_run E [DJVUSED_PATH; input_file; "-e"; "n"] None;
     let '(returncode, stdout) := process in
     if (returncode =? 0)%Z && Py.isdigit (Py.strip stdout)
     then n ← py_int (Py.strip stdout); mret (Some n)
     else mret None)
    (λ e, print ("Error getting page count with djvused: " +:+ e);;
          mret None).

Definition page_lines (stdout : string) : list string :=
  List.filter (λ line, Py.startswith "Page " (Py.strip line))
              (Py.split Py.newline stdout).

(** The second [try] block of [get_page_count]. *)
Definition count_with_ddjvu (input_file : string) : M (option N) :=
  try_except
    (process ← subprocess_run E [DDJVU_PATH; "-l"; input_file] None;
     let '(returncode, stdout) := process in
     if (returncode =? 0)%Z
     then let pages := page_lines stdout in
          match pages with
          | [] => mret None
          | _ => mret (Some (N.of_nat (length pages)))
          end
     else mret None)
    (λ e, print ("Error getting page count with ddjvu -l: " +:+ e);;
          mret None).

Definition get_page_count (input_file : string) : M N :=
  first ← count_with_djvused input_file;
  match first with
  | Some n => mret n
  | None =>
      second ← count_with_ddjvu input_file;
      match second with
      | Some n => mret n
      | None =>
          print "Could not determine page count, using default value";;
          mret 100
      end
  end.

Definition render_cmd (ddjvu_path input_file output_file : string)
    (page quality : N) (fmt : string) : list string :=
  [ddjvu_path; "-page=" +:+ Py.str page; "-format=" +:+ fmt; "-mode=color";
   "-quality=" +:+ Py.str quality; "-skip"; input_file; output_file].

Definition tiff_name (output_file : string) : string :=
  Py.replace ".png" ".tiff" output_file.

Definition extract_page (ddjvu_path input_file output_file : string)
    (page quality : N) : M bool :=
  try_except
    (process ← subprocess_run E
         (render_cmd ddjvu_path input_file output_file page quality "png")
         (Some (output_file, Raster input_file page PNG));
     png_there ← os_path_exists output_file;
     if (process.1 =? 0)%Z && png_there then mret true
     else
       process ← subprocess_run E
           (render_cmd ddjvu_path input_file (tiff_name output_file)
                       page quality "tiff")
           (Some (tiff_name output_file, Raster input_file page TIFF));
       tiff_there ← os_path_exists (tiff_name output_file);
       if (process.1 =? 0)%Z && tiff_there then
         let tiff_file := tiff_name output_file in
         pil_reencode E tiff_file output_file;;
         os_remove E tiff_file;;
         mret true
       else mret false)
    (λ e, print ("Error extracting page " +:+ Py.str page +:+ ": " +:+ e);;
          mret false).

(** [f"page_{page:04d}.png"] *)
Definition page_name (page : N) : string :=
  "page_" +:+ Py.fmt_04d page +:+ ".png".

Definition page_filename (temp_dir : string) (page : N) : string :=
  Path.join temp_dir (page_name page).

(** The body of the [for page in range(1, num_pages + 1)] loop, over the
    pages still to come; [successful_pages] is the counter. *)
Fixpoint extract_pages (input_file temp_dir : string) (quality num_pages : N)
    (pages : list N) (successful_pages : N) : M N :=
  match pages with
  | [] => mret successful_pages
  | page :: rest =>
      print ("Extracting page " +:+ Py.str page +:+ "/" +:+ Py.str num_pages
             +:+ "...");;
      ok ← extract_page DDJVU_PATH input_file
             (page_filename temp_dir page) page quality;
      if ok : bool
      then extract_pages input_file temp_dir quality num_pages rest
             (successful_pages + 1)
      else
        print ("Warning: Failed to extract page " +:+ Py.str page);;
        extract_pages input_file temp_dir quality num_pages rest
          successful_pages
  end.

(** [zipfile.ZipFile(output_file, 'w')]: the archive starts empty,
    replacing whatever was there. *)
Definition zip_open (output_file : string) : M unit := λ w,
  match zip_open_error E output_file with
  | Some e => (Exc e, w)
  | None => (Ret tt, set_files (insert output_file (Archive [])) w)
  end.

(** [zipf.write(src, arcname)] on the archive at [output_file]. *)
Definition zip_write (output_file src arcname : string) : M unit := λ w,
  match zip_write_error E output_file arcname with
  | Some e => (Exc e, w)
  | None =>
      match files w !! src, files w !! output_file with
      | Some c, Some (Archive entries) =>
          (Ret tt,
           set_files (insert output_file (Archive (entries ++ [(arcname, c)]))) w)
      | None, _ => (Exc "FileNotFoundError", w)
      | _, _ => (Exc "BadZipFile", w)
      end
  end.

Fixpoint zip_write_all (output_file temp_dir : string)
    (png_files : list string) : M unit :=
  match png_files with
  | [] => mret tt
  | png_file :: rest =>
      zip_write output_file (Path.join temp_dir png_file) png_file;;
      zip_write_all output_file temp_dir rest
  end.

(** The [with zipfile.ZipFile(...)] block; it returns [png_files]. *)
Definition create_cbz (output_file temp_dir : string) : M (list string) :=
  zip_open output_file;;
  names ← gets (listdir temp_dir);
  let png_files :=
    merge_sort String.le (List.filter (Py.endswith ".png") names) in
  zip_write_all output_file temp_dir png_files;;
  mret png_files.

(** The [try] block of [convert_djvu_to_cbz]. *)
Definition convert_body (input_file output_file temp_dir : string)
    (quality : N) : M bool :=
  num_pages ← get_page_count input_file;
  print ("Document has " +:+ Py.str num_pages +:+ " pages");;
  successful_pages ←
    extract_pages input_file temp_dir quality num_pages
      (Py.range 1 (num_pages + 1)) 0;
  if successful_pages =? 0 then
    print ("Error: Could not extract any pages from " +:+ input_file);;
    mret false
  else
    print ("Creating CBZ file: " +:+ output_file);;
    png_files ← create_cbz output_file temp_dir;
    print ("Successfully converted " +:+ input_file
           +:+ " to CBZ format with "
           +:+ Py.str (N.of_nat (length png_files)) +:+ " pages");;
    mret true.

Definition convert_djvu_to_cbz (input_file output_file : string)
    (quality : N) : M bool :=
  print ("Converting: " +:+ input_file +:+ " to " +:+ output_file);;
  temp_dir ← mkdtemp E;
  print ("Created temporary directory: " +:+ temp_dir);;
  try_finally
    (try_except
       (convert_body input_file output_file temp_dir quality)
       (λ e, print ("Error converting " +:+ input_file +:+ ": " +:+ e);;
             mret false))
    (print ("Cleaning up temporary directory: " +:+ temp_dir);;
     rmtree temp_dir).

(** [os.walk] reports every directory of the tree as the list of
    names that lead to it from [input_folder], with the files it holds;
    [root] is the path [os.walk] builds from them. *)
Definition walk_root (input_folder : string) (rel : list string) : string :=
  fold_left Path.join rel input_folder.

(** [os.path.relpath(root, input_folder)] for a [root] of the walk. *)
Definition relpath (rel : list string) : string :=
  match rel with
  | [] => "."
  | _ => String.concat "/" rel
  end.

(** [file.lower().endswith(('.djvu', '.djv'))] *)
Definition is_djvu (file : string) : bool :=
  Py.endswith ".djvu" (Py.lower file) || Py.endswith ".djv" (Py.lower file).

Definition output_subdir (output_folder : string) (rel : list string) : string :=
  Path.join output_folder (relpath rel).

Definition output_path (output_folder : string) (rel : list string)
    (file : string) : string :=
  Path.join (output_subdir output_folder rel)
            ((Path.splitext file).1 +:+ ".cbz").

(** The inner loop [for file in files] of the discovery. *)
Fixpoint discover_files (input_folder output_folder : string)
    (rel : list string) (files : list string)
    (djvu_files : list (string * string)) : M (list (string * string)) :=
  match files with
  | [] => mret djvu_files
  | file :: rest =>
      if is_djvu file then
        print ("Found DJVU file: " +:+ file);;
        let input_path := Path.join (walk_root input_folder rel) file in
        there ← os_path_exists (output_subdir output_folder rel);
        (if there : bool then mret tt
         else os_makedirs (output_subdir output_folder rel));;
        discover_files input_folder output_folder rel rest
          (djvu_files ++ [(input_path, output_path output_folder rel file)])
      else discover_files input_folder output_folder rel rest djvu_files
  end.

(** The outer loop [for root, _, files in os.walk(input_folder)]. *)
Fixpoint discover (input_folder output_folder : string)
    (walk : list (list string * list string))
    (djvu_files : list (string * string)) : M (list (string * string)) :=
  match walk with
  | [] => mret djvu_files
  | (rel, files) :: rest =>
      found ← discover_files input_folder output_folder rel files djvu_files;
      discover input_folder output_folder rest found
  end.

(** The jobs are run one after the other; with a worker pool the
    results are collected in submission order as well, and the
    interleaving of the workers is not modelled. *)
Fixpoint convert_all (quality : N) (jobs : list (string * string))
    (successful : N) : M N :=
  match jobs with
  | [] => mret successful
  | (input_file, output_file) :: rest =>
      ok ← convert_djvu_to_cbz input_file output_file quality;
      convert_all quality rest (if ok : bool then successful + 1 else successful)
  end.

Definition process_folder (input_folder : string)
    (output_folder : option string) (quality : N) (max_workers : Z) : M unit :=
  print "Starting process with the following parameters:";;
  print ("Input folder: " +:+ input_folder);;
  print ("Output folder: " +:+ default "None" output_folder);;
  print ("Quality: " +:+ Py.str quality);;
  print ("Max workers: " +:+ Py.str_int max_workers);;
  input_there ← os_path_exists input_folder;
  if negb input_there then
    print ("Input folder '" +:+ input_folder +:+ "' does not exist.")
  else
    let output_folder := default input_folder output_folder in
    output_there ← os_path_exists output_folder;
    (if output_there : bool then mret tt
     else print ("Creating output folder: " +:+ output_folder);;
          os_makedirs output_folder);;
    print ("Searching for DJVU files in: " +:+ input_folder);;
    djvu_files ← discover input_folder output_folder (os_walk E input_folder) [];
    match djvu_files with
    | [] => print "No DJVU files found in the input folder."
    | _ =>
        print ("Found " +:+ Py.str (N.of_nat (length djvu_files))
               +:+ " DJVU files to convert.");;
        ddjvu_there ← os_path_exists DDJVU_PATH;
        if negb ddjvu_there then
          print ("Error: ddjvu executable not found at " +:+ DDJVU_PATH)
        else
          (if pil_importable E then mret tt
           else print "Installing required Python package: Pillow";;
                process ← subprocess_run E ["pip"; "install"; "Pillow"] None;
                if (process.1 =? 0)%Z then mret tt
                else raise "CalledProcessError");;
          (if (1 <? max_workers)%Z
           then print ("Starting parallel conversion with "
                       +:+ Py.str_int max_workers +:+ " workers")
           else print "Starting sequential conversion");;
          successful ← convert_all quality djvu_files 0;
          print ("Conversion completed. Successfully converted "
                 +:+ Py.str successful +:+ " out of "
                 +:+ Py.str (N.of_nat (length djvu_files)) +:+ " files.")
    end.

End Script.


(** ** What the page counter answers *)

Section page_count.

Context (E : Env).

Definition djvused_cmd (input_file : string) : list string :=
  [DJVUSED_PATH; input_file; "-e"; "n"].

Definition listing_cmd (input_file : string) : list string :=
  [DDJVU_PATH; "-l"; input_file].

(** The count the script evaluator gives: it exits with status 0 and
    prints a decimal number. *)
Definition primary_count (input_file : string) : option N :=
  match subprocess_result E (djvused_cmd input_file) with
  | Completes returncode stdout _ =>
      if (returncode =? 0)%Z && Py.isdigit (Py.strip stdout)
      then Py.int (Py.strip stdout) else None
  | Raises _ => None
  end.

(** The count the page lister gives: it exits with status 0 and
    prints at least one page line. *)
Definition fallback_count (input_file : string) : option N :=
  match subprocess_result E (listing_cmd input_file) with
  | Completes returncode stdout _ =>
      if (returncode =? 0)%Z
      then match page_lines stdout with
           | [] => None
           | pages => Some (N.of_nat (length pages))
           end
      else None
  | Raises _ => None
  end.

Definition page_count (input_file : string) : N :=
  default (default 100 (fallback_count input_file)) (primary_count input_file).

Definition default_notice : string :=
  "Could not determine page count, using default value".

(** The lines [get_page_count] prints, latest first. *)
Definition count_notices (input_file : string) : list string :=
  match primary_count input_file with
  | Some _ => []
  | None =>
      match fallback_count input_file with
      | Some _ => []
      | None => [default_notice]
      end
      ++ match subprocess_result E (listing_cmd input_file) with
         | Raises e => ["Error getting page count with ddjvu -l: " +:+ e]
         | _ => []
         end
  end
  ++ match subprocess_result E (djvused_cmd input_file) with
     | Raises e => ["Error getting page count with djvused: " +:+ e]
     | Completes returncode stdout _ =>
         if (returncode =? 0)%Z && Py.isdigit (Py.strip stdout)
         then match Py.int (Py.strip stdout) with
              | Some _ => []
              | None =>
                  ["Error getting page count with djvused: "
                   +:+ "invalid literal for int() with base 10"]
              end
         else []
     end.

(** The commands [get_page_count] spawns, latest first. *)
Definition count_cmds (input_file : string) : list (list string) :=
  match primary_count input_file with
  | Some _ => [djvused_cmd input_file]
  | None => [listing_cmd input_file; djvused_cmd input_file]
  end.

(** A tool fails when the call raises or the exit status is not 0. *)
Definition tool_fails (cmd : list string) : Prop :=
  match subprocess_result E cmd with
  | Raises _ => True
  | Completes returncode _ _ => returncode ≠ 0%Z
  end.

End page_count.

Fixpoint has_dot (s : string) : bool :=
  match s with
  | EmptyString => false
  | String c s' => Ascii.eqb c "."%char || has_dot s'
  end.

(** ** What a conversion does, step by step *)

Section conversion_spec.

Context (E : Env).

(** The world in which the [try] block of [convert_djvu_to_cbz]
    starts: the scratch directory exists. *)
Definition scratch_world (input_file output_file : string) (w : world) : world :=
  World (files w) ({[scratch_name E w]} ∪ dirs w)
        (("Created temporary directory: " +:+ scratch_name E w)
         :: ("Converting: " +:+ input_file +:+ " to " +:+ output_file)
         :: console w)
        (processes w).

(** The world in which the page loop starts. *)
Definition counted_world (input_file output_file : string) (w : world) : world :=
  let w1 := scratch_world input_file output_file w in
  World (files w1) (dirs w1)
        (("Document has " +:+ Py.str (page_count E input_file) +:+ " pages")
         :: count_notices E input_file ++ console w1)
        (count_cmds E input_file ++ processes w1).

(** One turn of the page loop; the result is what [extract_page]
    returned. *)
Definition extract_step (input_file temp_dir : string) (quality num_pages page : N)
    : M bool :=
  print ("Extracting page " +:+ Py.str page +:+ "/" +:+ Py.str num_pages
         +:+ "...");;
  ok ← extract_page E DDJVU_PATH input_file (page_filename temp_dir page)
         page quality;
  (if ok : bool then mret tt
   else print ("Warning: Failed to extract page " +:+ Py.str page));;
  mret ok.

Definition succeeded (r : outcome bool * world) : bool :=
  match result r with
  | Ret true => true
  | _ => false
  end.

(** The pages of the loop with what [extract_page] returned for each. *)
Fixpoint page_results (input_file temp_dir : string) (quality num_pages : N)
    (pages : list N) (w : world) : list (N * bool) :=
  match pages with
  | [] => []
  | page :: rest =>
      let r := extract_step input_file temp_dir quality num_pages page w in
      (page, succeeded r)
      :: page_results input_file temp_dir quality num_pages rest (final r)
  end.

(** The world the loop leaves. *)
Fixpoint world_after_pages (input_file temp_dir : string) (quality num_pages : N)
    (pages : list N) (w : world) : world :=
  match pages with
  | [] => w
  | page :: rest =>
      world_after_pages input_file temp_dir quality num_pages rest
        (final (extract_step input_file temp_dir quality num_pages page w))
  end.

Definition successes (results : list (N * bool)) : list N :=
  map fst (List.filter snd results).

(** The pages of a conversion for which [extract_page] returned
    [True], in the order of the loop. *)
Definition successful_pages (input_file output_file : string) (quality : N)
    (w : world) : list N :=
  let n := page_count E input_file in
  successes
    (page_results input_file (scratch_name E w) quality n
       (Py.range 1 (n + 1)) (counted_world input_file output_file w)).

(** The world a conversion is in when the page loop is over. *)
Definition extracted_world (input_file output_file : string) (quality : N)
    (w : world) : world :=
  let n := page_count E input_file in
  world_after_pages input_file (scratch_name E w) quality n
    (Py.range 1 (n + 1)) (counted_world input_file output_file w).

(** The pages whose file is in the scratch directory when the loop is
    over. *)
Definition pages_in_scratch (input_file output_file : string) (quality : N)
    (w : world) : list N :=
  let n := page_count E input_file in
  List.filter
    (λ page, bool_decide (is_Some
       (files (extracted_world input_file output_file quality w)
        !! page_filename (scratch_name E w) page)))
    (Py.range 1 (n + 1)).

(** The [finally] block of [convert_djvu_to_cbz]. *)
Definition cleanup (temp_dir : string) (w : world) : world :=
  remove_tree temp_dir
    (say ("Cleaning up temporary directory: " +:+ temp_dir) w).

(** Two checks, by computation, of the page names up to four digits:
    each name is below the next one in the order of strings; none holds
    a separator, and the only dot is the one of the extension. *)
Definition names_ascend (page : N) : bool :=
  String.ltb (page_name page) (page_name (page + 1)).

Definition name_is_plain (page : N) : bool :=
  negb (Path.has_sep (page_name page))
  && negb (has_dot ("page_" +:+ Py.fmt_04d page)).

(** The archive entry of a page. *)
Definition page_entry (input_file : string) (page : N) : string * content :=
  (page_name page, Raster input_file page PNG).

End conversion_spec.

(** ** What the batch orchestrator discovers *)

Section discovery_spec.

Context (E : Env).

(** The job of a source document found in the directory [rel]. *)
Definition job_of (input_folder output_folder : string) (rel : list string)
    (file : string) : string * string :=
  (Path.join (walk_root input_folder rel) file,
   output_path output_folder rel file).

Definition jobs_in (input_folder output_folder : string)
    (entry : list string * list string) : list (string * string) :=
  map (job_of input_folder output_folder entry.1)
      (List.filter is_djvu entry.2).

(** The jobs of a walk, in the order of the walk. *)
Definition jobs_of_walk (input_folder output_folder : string)
    (walk : list (list string * list string)) : list (string * string) :=
  flat_map (jobs_in input_folder output_folder) walk.

(** [process_folder] up to the end of the discovery, for an input
    folder that exists. *)
Definition discovery (input_folder : string) (output_folder : option string)
    (quality : N) (max_workers : Z) : M (list (string * string)) :=
  print "Starting process with the following parameters:";;
  print ("Input folder: " +:+ input_folder);;
  print ("Output folder: " +:+ default "None" output_folder);;
  print ("Quality: " +:+ Py.str quality);;
  print ("Max workers: " +:+ Py.str_int max_workers);;
  let output_folder := default input_folder output_folder in
  output_there ← os_path_exists output_folder;
  (if output_there : bool then mret tt
   else print ("Creating output folder: " +:+ output_folder);;
        os_makedirs output_folder);;
  print ("Searching for DJVU files in: " +:+ input_folder);;
  discover input_folder output_folder (os_walk E input_folder) [].

(** A name as [os.walk] reports it: not empty, and without a
    separator. *)
Definition valid_name (s : string) : Prop :=
  s ≠ "" ∧ Path.has_sep s = false.

(** A walk as [os.walk] reports it: directories have valid names other
    than [.], files have valid names. *)
Definition valid_walk (walk : list (list string * list string)) : Prop :=
  ∀ rel fs, (rel, fs) ∈ walk →
    (∀ d, d ∈ rel → valid_name d ∧ d ≠ ".") ∧ (∀ f, f ∈ fs → valid_name f).

(** A string that ends in something else than a separator. *)
Definition open_ended (s : string) : Prop :=
  ∃ c, Path.last_char s = Some c ∧ Ascii.eqb c Path.sep = false.

(** From [w] to [w'] only directories and console lines were added. *)
Definition grows (w w' : world) : Prop :=
  files w' = files w ∧ processes w' = processes w ∧ dirs w ⊆ dirs w'.

(** No two jobs with different sources share a destination. *)
Definition distinct_destinations (jobs : list (string * string)) : Prop :=
  ∀ j1 j2, j1 ∈ jobs → j2 ∈ jobs → j1.1 ≠ j2.1 → j1.2 ≠ j2.2.

End discovery_spec.

(** ** Assumptions on the tools *)

(** The renderer leaves a file behind only when it exits with status 0,
    and removing a file never fails. *)
Definition leaves_no_stray (E : Env) : Prop :=
  (∀ cmd rc out, subprocess_result E cmd = Completes rc out true → rc = 0%Z)
  ∧ (∀ p, os_remove_error E p = None).

(** [tempfile.mkdtemp] made a new directory: nothing is below it, and
    the names the extractor is going to use for its TIFF files are
    free. *)
Definition scratch_is_new (E : Env) (w : world) : Prop :=
  (∀ p, Path.under (scratch_name E w) p = true →
        files w !! p = None ∧ p ∉ dirs w)
  ∧ (∀ page,
       files w !! tiff_name (page_filename (scratch_name E w) page) = None
       ∧ tiff_name (page_filename (scratch_name E w) page) ∉ dirs w).

(** ** Reading an archive *)

(** The order of the entries of an archive by file name. *)
Definition name_le (a b : string * content) : Prop := String.le a.1 b.1.

Global Instance name_le_dec : RelDecision name_le :=
  λ a b, decide (String.le a.1 b.1).

(** The archive of a conversion holds one entry for each page that was
    extracted and, read in the order of the file names, the entries are
    the pages in ascending order. *)
Definition archive_holds_extracted_pages (E : Env)
    (input_file output_file : string) (quality : N) (w : world) : Prop :=
  let successful := successful_pages E input_file output_file quality w in
  ∃ entries,
    files (final (convert_djvu_to_cbz E input_file output_file quality w))
      !! output_file = Some (Archive entries)
    ∧ length entries = length successful
    ∧ map snd (merge_sort name_le entries)
      = map (λ page, Raster input_file page PNG) successful.

(** ** Concrete environments *)

Definition empty_world : world := World ∅ ∅ [] [].

(** The [k]-th word of a command line. *)
Definition arg (k : nat) (cmd : list string) : string := default "" (cmd !! k).

(** A script evaluator that answers [0] for every document. *)
Definition empty_document_env : Env := {|
  subprocess_result := λ cmd, Completes 0 "0" false;
  pil_save_error := λ _ _, None;
  os_remove_error := λ _, None;
  mkdtemp_name := λ _ _, "/tmp/tmpq7x2";
  zip_open_error := λ _, None;
  zip_write_error := λ _ _, None;
  os_walk := λ _, [];
  pil_importable := true
|}.

(** Every tool is missing: spawning raises. *)
Definition no_tools_env : Env := {|
  subprocess_result := λ cmd, Raises "FileNotFoundError";
  pil_save_error := λ _ _, None;
  os_remove_error := λ _, None;
  mkdtemp_name := λ _ _, "/tmp/tmpq7x2";
  zip_open_error := λ _, None;
  zip_write_error := λ _ _, None;
  os_walk := λ _, [];
  pil_importable := true
|}.

(** An environment in which only the subprocesses matter: the library
    calls go through and the scratch directory is [/tmp/tmpq7x2]. *)
Definition env_of (run : list string → proc_outcome) : Env := {|
  subprocess_result := run;
  pil_save_error := λ _ _, None;
  os_remove_error := λ _, None;
  mkdtemp_name := λ _ _, "/tmp/tmpq7x2";
  zip_open_error := λ _, None;
  zip_write_error := λ _ _, None;
  os_walk := λ _, [];
  pil_importable := true
|}.


(** A three-page document whose pages render as TIFF only: asked for a
    PNG, the renderer exits with status 0 and writes nothing. *)
Definition tiff_only_env : Env :=
  env_of (λ cmd,
    if String.eqb (arg 0 cmd) DJVUSED_PATH then Completes 0 "3" false
    else if String.eqb (arg 2 cmd) "-format=tiff" then Completes 0 "" true
    else Completes 0 "" false).

(** The same document, with a destination that cannot be written. *)
Definition read_only_env : Env := {|
  subprocess_result := subprocess_result tiff_only_env;
  pil_save_error := λ _ _, None;
  os_remove_error := λ _, None;
  mkdtemp_name := λ _ _, "/tmp/tmpq7x2";
  zip_open_error := λ _, Some "PermissionError";
  zip_write_error := λ _ _, None;
  os_walk := λ _, [];
  pil_importable := true
|}.

(** An input folder with one document stored under both extensions, and
    one more in a sub-directory. *)
Definition twin_env : Env := {|
  subprocess_result := subprocess_result tiff_only_env;
  pil_save_error := λ _ _, None;
  os_remove_error := λ _, None;
  mkdtemp_name := λ _ _, "/tmp/tmpq7x2";
  zip_open_error := λ _, None;
  zip_write_error := λ _ _, None;
  os_walk := λ _, [([], ["doc.djvu"; "doc.djv"]); (["a"; "b"], ["doc.djvu"])];
  pil_importable := true
|}.

(** A world in which the input folder [in] exists, and nothing else. *)
Definition input_only_world : world := World ∅ {["in"]} [] [].

(** A book of ten thousand pages.  Pages 9999 and 10000 render as PNG.
    For page 1 the renderer writes the PNG and then exits with status 1.
    Nothing else renders. *)
Definition long_book_env : Env :=
  env_of (λ cmd,
    if String.eqb (arg 0 cmd) DJVUSED_PATH then Completes 0 "10000" false
    else if String.eqb (arg 2 cmd) "-format=png" then
      if String.eqb (arg 1 cmd) "-page=1" then Completes 1 "" true
      else if String.eqb (arg 1 cmd) "-page=9999" then Completes 0 "" true
      else if String.eqb (arg 1 cmd) "-page=10000" then Completes 0 "" true
      else Completes 1 "" false
    else Completes 1 "" false).

(** ** More environments *)

(** The script evaluator answers with a superscript two, which
    [isdigit] accepts and [int] refuses; the page lister names two
    pages. *)
Definition superscript_env : Env :=
  env_of (λ cmd,
    if String.eqb (arg 0 cmd) DJVUSED_PATH
    then Completes 0 (String (ascii_of_N 178) "") false
    else Completes 0 ("Page 1" +:+ String Py.newline "Page 2") false).

(** The pages render as TIFF only, and Pillow cannot write the PNG. *)
Definition broken_pillow_env : Env := {|
  subprocess_result := subprocess_result tiff_only_env;
  pil_save_error := λ _ _, Some "OSError";
  os_remove_error := λ _, None;
  mkdtemp_name := λ _ _, "/tmp/tmpq7x2";
  zip_open_error := λ _, None;
  zip_write_error := λ _ _, None;
  os_walk := λ _, [];
  pil_importable := true
|}.

(** The world after a PNG attempt that failed and a TIFF attempt that
    wrote its file. *)
Definition tiff_written (ddjvu input_file output_file : string)
    (page quality : N) (wrote1 : bool) (w : world) : world :=
  let png_cmd := render_cmd ddjvu input_file output_file page quality "png" in
  let tiff_cmd :=
    render_cmd ddjvu input_file (tiff_name output_file) page quality "tiff" in
  World (<[tiff_name output_file:=Raster input_file page TIFF]>
           (if wrote1 then <[output_file:=Raster input_file page PNG]> (files w)
            else files w))
        (dirs w) (console w) (tiff_cmd :: png_cmd :: processes w).

(** The commands a list holds are all calls of the renderer. *)
Definition renderer_calls (cmds : list (list string)) : Prop :=
  Forall (λ cmd, head cmd = Some DDJVU_PATH) cmds.






(** The lines [process_folder] starts with, latest first. *)
Definition banner (input_folder : string) (output_folder : option string)
    (quality : N) (max_workers : Z) : list string :=
  [ "Max workers: " +:+ Py.str_int max_workers;
    "Quality: " +:+ Py.str quality;
    "Output folder: " +:+ default "None" output_folder;
    "Input folder: " +:+ input_folder;
    "Starting process with the following parameters:" ].


(** A world with the input folder [in] and the renderer installed. *)
Definition ready_world : world :=
  World {[DDJVU_PATH := Blob 0]} {["in"]} [] [].

(** ** The console is write-only *)

(** Two worlds that differ in the console at most. *)
Definition same_fs (w1 w2 : world) : Prop :=
  files w1 = files w2 ∧ dirs w1 = dirs w2 ∧ processes w1 = processes w2.

(** A computation that does not read the console: from worlds that
    differ in the console only it gives the same result, in worlds that
    differ in the console only. *)
Definition blind {A} (m : M A) : Prop :=
  ∀ w1 w2, same_fs w1 w2 →
    result (m w1) = result (m w2) ∧ same_fs (final (m w1)) (final (m w2)).

(** [process_folder] after its banner, with the output folder it
    works with. *)
Definition process_folder_work (E : Env) (input_folder output_folder : string)
    (quality : N) (max_workers : Z) : M unit :=
  input_there ← os_path_exists input_folder;
  if negb input_there then
    print ("Input folder '" +:+ input_folder +:+ "' does not exist.")
  else
    output_there ← os_path_exists output_folder;
    (if output_there : bool then mret tt
     else print ("Creating output folder: " +:+ output_folder);;
          os_makedirs output_folder);;
    print ("Searching for DJVU files in: " +:+ input_folder);;
    djvu_files ← discover input_folder output_folder (os_walk E input_folder) [];
    match djvu_files with
    | [] => print "No DJVU files found in the input folder."
    | _ =>
        print ("Found " +:+ Py.str (N.of_nat (length djvu_files))
               +:+ " DJVU files to convert.");;
        ddjvu_there ← os_path_exists DDJVU_PATH;
        if negb ddjvu_there then
          print ("Error: ddjvu executable not found at " +:+ DDJVU_PATH)
        else
          (if pil_importable E then mret tt
           else print "Installing required Python package: Pillow";;
                process ← subprocess_run E ["pip"; "install"; "Pillow"] None;
                if (process.1 =? 0)%Z then mret tt
                else raise "CalledProcessError");;
          (if (1 <? max_workers)%Z
           then print ("Starting parallel conversion with "
                       +:+ Py.str_int max_workers +:+ " workers")
           else print "Starting sequential conversion");;
          successful ← convert_all E quality djvu_files 0;
          print ("Conversion completed. Successfully converted "
                 +:+ Py.str successful +:+ " out of "
                 +:+ Py.str (N.of_nat (length djvu_files)) +:+ " files.")
    end.


(** ** Facts about strings *)

Section string_facts.

Implicit Types s t u : string.

Lemma sapp_cons c s t : String c s +:+ t = String c (s +:+ t).
Proof. reflexivity. Qed.

Lemma sapp_nil_l s : "" +:+ s = s.
Proof. reflexivity. Qed.

Lemma sapp_nil_r s : s +:+ "" = s.
Proof. induction s as [|c s IH]; [done|]. by rewrite sapp_cons, IH. Qed.

Lemma sapp_assoc s t u : (s +:+ t) +:+ u = s +:+ t +:+ u.
Proof. induction s as [|c s IH]; [done|]. by rewrite !sapp_cons, IH. Qed.

Lemma slength_app s t :
  String.length (s +:+ t) = (String.length s + String.length t)%nat.
Proof. induction s as [|c s IH]; [done|]. rewrite sapp_cons. simpl. by rewrite IH. Qed.

Lemma prefix_app s t : String.prefix s (s +:+ t) = true.
Proof.
  induction s as [|c s IH]; [by destruct t|].
  rewrite sapp_cons. simpl. by destruct (ascii_dec c c).
Qed.

Lemma prefix_inv s t : String.prefix s t = true → ∃ r, t = s +:+ r.
Proof.
  revert t. induction s as [|c s IH]; intros t H.
  - by exists t.
  - destruct t as [|d t]; [done|]. simpl in H.
    destruct (ascii_dec c d) as [->|]; [|done].
    destruct (IH _ H) as [r ->]. by exists r.
Qed.

Lemma drop_app s t : Py.drop (String.length s) (s +:+ t) = t.
Proof. induction s as [|c s IH]; [by destruct t|]. by rewrite sapp_cons. Qed.

Lemma sapp_inv_r s t u : s +:+ u = t +:+ u → s = t.
Proof.
  revert t. induction s as [|c s IH]; intros [|d t] H; [done| | |].
  - apply (f_equal String.length) in H.
    rewrite sapp_nil_l, sapp_cons in H. simpl in H.
    rewrite slength_app in H. lia.
  - apply (f_equal String.length) in H.
    rewrite sapp_nil_l, sapp_cons in H. simpl in H.
    rewrite slength_app in H. lia.
  - rewrite !sapp_cons in H. injection H as -> H. f_equal. by apply IH.
Qed.

Lemma endswith_unfold suffix s :
  Py.endswith suffix s =
  if String.eqb s suffix then true
  else match s with
       | EmptyString => false
       | String _ s' => Py.endswith suffix s'
       end.
Proof. by destruct s. Qed.

Lemma endswith_app suffix s : Py.endswith suffix (s +:+ suffix) = true.
Proof.
  induction s as [|c s IH]; rewrite endswith_unfold.
  - by rewrite sapp_nil_l, String.eqb_refl.
  - rewrite sapp_cons. by destruct (String.eqb _ _).
Qed.

Lemma endswith_inv suffix s :
  Py.endswith suffix s = true → ∃ r, s = r +:+ suffix.
Proof.
  induction s as [|c s IH]; rewrite endswith_unfold.
  - destruct (String.eqb_spec "" suffix) as [<-|]; [by exists ""|done].
  - destruct (String.eqb_spec (String c s) suffix) as [<-|]; [by exists ""|].
    intros H. destruct (IH H) as [r ->]. by exists (String c r).
Qed.

(** A name that ends in [.tiff] does not end in [.png]. *)
Lemma tiff_not_png s t : s +:+ ".tiff" ≠ t +:+ ".png".
Proof.
  revert t. induction s as [|c s IH]; intros t H.
  - destruct t as [|? [|? t]]; try done.
    apply (f_equal String.length) in H. rewrite !sapp_cons in H. simpl in H.
    rewrite slength_app in H. simpl in H. lia.
  - destruct t as [|d t].
    + destruct s as [|? [|? [|? [|? s]]]]; done.
    + rewrite !sapp_cons in H. injection H as _ H. by eapply IH.
Qed.

Lemma replace_fuel_unfold fuel old new s :
  Py.replace_fuel (S fuel) old new s =
  if String.prefix old s
  then new +:+ Py.replace_fuel fuel old new (Py.drop (String.length old) s)
  else match s with
       | EmptyString => EmptyString
       | String c s' => String c (Py.replace_fuel fuel old new s')
       end.
Proof. reflexivity. Qed.

(** Once the fuel exceeds the length of the string, more fuel changes
    nothing. *)
Lemma replace_fuel_enough n : ∀ s f1 f2,
  (String.length s < n)%nat →
  (String.length s < f1)%nat → (String.length s < f2)%nat →
  Py.replace_fuel f1 ".png" ".tiff" s = Py.replace_fuel f2 ".png" ".tiff" s.
Proof.
  induction n as [|n IH]; intros s f1 f2 Hn H1 H2; [lia|].
  destruct f1 as [|f1]; [lia|]. destruct f2 as [|f2]; [lia|].
  rewrite !replace_fuel_unfold.
  destruct (String.prefix ".png" s) eqn:Hp.
  - f_equal. apply prefix_inv in Hp as [r ->].
    rewrite drop_app. rewrite slength_app in Hn, H1, H2. simpl in Hn, H1, H2.
    apply IH; lia.
  - destruct s as [|c s]; [done|]. f_equal. simpl in Hn, H1, H2.
    apply IH; lia.
Qed.

(** The defining equation of [replace], without fuel. *)
Lemma replace_unfold s :
  Py.replace ".png" ".tiff" s =
  if String.prefix ".png" s
  then ".tiff" +:+ Py.replace ".png" ".tiff" (Py.drop 4 s)
  else match s with
       | EmptyString => EmptyString
       | String c s' => String c (Py.replace ".png" ".tiff" s')
       end.
Proof.
  unfold Py.replace at 1. rewrite replace_fuel_unfold.
  destruct (String.prefix ".png" s) eqn:Hp.
  - apply prefix_inv in Hp as [r ->].
    change (Py.drop 4 (".png" +:+ r)) with r.
    change (Py.drop (String.length ".png") (".png" +:+ r)) with r.
    f_equal. apply (replace_fuel_enough (S (String.length r)));
      rewrite ?slength_app; simpl; lia.
  - by destruct s.
Qed.

(** On a name with the primary extension, [replace] swaps at least the
    extension. *)
Lemma replace_png_length n : ∀ s,
  (String.length s < n)%nat →
  ∃ t, Py.replace ".png" ".tiff" (s +:+ ".png") = t +:+ ".tiff".
Proof.
  induction n as [|n IH]; intros s Hn; [lia|]. rewrite replace_unfold.
  destruct (String.prefix ".png" (s +:+ ".png")) eqn:Hp.
  - apply prefix_inv in Hp as [r Hr].
    destruct s as [|c1 [|c2 [|c3 [|c4 s]]]]; try done.
    + exists "". by rewrite sapp_nil_l.
    + rewrite !sapp_cons in Hr. injection Hr as -> -> -> -> _.
      destruct (IH s) as [t Ht]; [simpl in Hn; lia|].
      exists (".tiff" +:+ t). rewrite sapp_assoc, <-Ht. reflexivity.
  - destruct s as [|c s]; [done|]. rewrite sapp_cons.
    destruct (IH s) as [t Ht]; [simpl in Hn; lia|].
    exists (String c t). by rewrite Ht.
Qed.

Lemma replace_png s :
  ∃ t, Py.replace ".png" ".tiff" (s +:+ ".png") = t +:+ ".tiff".
Proof. apply (replace_png_length (S (String.length s))); lia. Qed.

End string_facts.

(** ** Facts about paths *)

Section path_facts.

Implicit Types s t u : string.

Lemma has_sep_app s t : Path.has_sep (s +:+ t) = Path.has_sep s || Path.has_sep t.
Proof.
  induction s as [|c s IH]; [done|].
  rewrite sapp_cons. simpl. rewrite IH. by rewrite orb_assoc.
Qed.

Lemma has_sep_cons_sep t : Path.has_sep (String "/" t) = true.
Proof. reflexivity. Qed.

Lemma last_char_app_cons s c t :
  Path.last_char (s +:+ String c t) = Path.last_char (String c t).
Proof.
  induction s as [|d s IH]; [done|].
  rewrite sapp_cons. cbn [Path.last_char]. rewrite IH.
  destruct s; by rewrite ?sapp_nil_l, ?sapp_cons.
Qed.

Lemma dirprefix_open_ended s : open_ended s → Path.dirprefix s = s +:+ "/".
Proof. intros (c & Hc & Hsep). unfold Path.dirprefix. by rewrite Hc, Hsep. Qed.

Lemma open_ended_app s t : open_ended t → open_ended (s +:+ t).
Proof.
  intros (c & Hc & Hsep). exists c. split; [|done].
  destruct t as [|d t]; [done|]. by rewrite last_char_app_cons.
Qed.

Lemma open_ended_no_sep s : s ≠ "" → Path.has_sep s = false → open_ended s.
Proof.
  induction s as [|c s IH]; [done|]. intros _ Hsep. simpl in Hsep.
  apply orb_false_iff in Hsep as [Hc Hs].
  destruct s as [|d s]; [by exists c|].
  destruct IH as (e & He & Hsep); [done..|]. by exists e.
Qed.

(** Cutting at the first separator. *)
Lemma first_sep_unique s t u v :
  Path.has_sep s = false → Path.has_sep t = false →
  s +:+ String "/" u = t +:+ String "/" v → s = t ∧ u = v.
Proof.
  revert t. induction s as [|c s IH]; intros [|d t] Hs Ht H.
  - rewrite !sapp_nil_l in H. by injection H as ->.
  - rewrite sapp_nil_l, sapp_cons in H. injection H as <- _. done.
  - rewrite sapp_nil_l, sapp_cons in H. injection H as -> _. done.
  - rewrite !sapp_cons in H. injection H as -> H. simpl in Hs, Ht.
    apply orb_false_iff in Hs as [_ Hs]. apply orb_false_iff in Ht as [_ Ht].
    destruct (IH t Hs Ht H) as [-> ->]. done.
Qed.

(** Cutting at the last separator. *)
Lemma last_sep_unique s t u v :
  Path.has_sep u = false → Path.has_sep v = false →
  s +:+ String "/" u = t +:+ String "/" v → s = t ∧ u = v.
Proof.
  revert t. induction s as [|c s IH]; intros [|d t] Hu Hv H.
  - rewrite !sapp_nil_l in H. by injection H as ->.
  - rewrite sapp_nil_l, sapp_cons in H. injection H as <- ->.
    by rewrite has_sep_app, has_sep_cons_sep, orb_true_r in Hu.
  - rewrite sapp_nil_l, sapp_cons in H. injection H as -> <-.
    by rewrite has_sep_app, has_sep_cons_sep, orb_true_r in Hv.
  - rewrite !sapp_cons in H. injection H as -> H.
    destruct (IH t Hu Hv H) as [-> ->]. done.
Qed.

Lemma concat_cons_cons x y l :
  String.concat "/" (x :: y :: l)
  = x +:+ String "/" (String.concat "/" (y :: l)).
Proof. reflexivity. Qed.

Lemma has_sep_concat x y l :
  Path.has_sep (String.concat "/" (x :: y :: l)) = true.
Proof.
  rewrite concat_cons_cons, has_sep_app, has_sep_cons_sep. apply orb_true_r.
Qed.

(** Joining valid names with separators loses nothing. *)
Lemma concat_inj l1 : ∀ l2,
  (∀ d, d ∈ l1 → valid_name d) → (∀ d, d ∈ l2 → valid_name d) →
  l1 ≠ [] → l2 ≠ [] →
  String.concat "/" l1 = String.concat "/" l2 → l1 = l2.
Proof.
  induction l1 as [|x [|x' l1] IH]; intros [|y [|y' l2]] H1 H2 ?? H; try done.
  - simpl in H. by subst.
  - exfalso. destruct (H1 x) as [_ Hx]; [by left|].
    change (x = String.concat "/" (y :: y' :: l2)) in H.
    by rewrite H, has_sep_concat in Hx.
  - exfalso. destruct (H2 y) as [_ Hy]; [by left|].
    change (String.concat "/" (x :: x' :: l1) = y) in H.
    by rewrite <-H, has_sep_concat in Hy.
  - rewrite !concat_cons_cons in H.
    apply first_sep_unique in H as [-> H].
    + f_equal. apply IH; try done.
      * intros d Hd. apply H1. by right.
      * intros d Hd. apply H2. by right.
    + apply H1. by left.
    + apply H2. by left.
Qed.

Lemma open_ended_concat l :
  (∀ d, d ∈ l → valid_name d) → l ≠ [] → open_ended (String.concat "/" l).
Proof.
  induction l as [|x [|y l] IH]; intros Hl ?; [done| |].
  - destruct (Hl x) as [? ?]; [by left|]. by apply open_ended_no_sep.
  - rewrite concat_cons_cons.
    change (String "/" ?t) with ("/" +:+ t). rewrite <-sapp_assoc.
    apply open_ended_app. apply IH; [|done]. intros d Hd. apply Hl. by right.
Qed.

Lemma relpath_open_ended rel :
  (∀ d, d ∈ rel → valid_name d) → open_ended (relpath rel).
Proof.
  destruct rel as [|x l]; intros H; [by exists "."%char|].
  by apply open_ended_concat.
Qed.

Lemma relpath_inj rel1 rel2 :
  (∀ d, d ∈ rel1 → valid_name d ∧ d ≠ ".") →
  (∀ d, d ∈ rel2 → valid_name d ∧ d ≠ ".") →
  relpath rel1 = relpath rel2 → rel1 = rel2.
Proof.
  intros H1 H2 H.
  assert (∀ x l, (∀ d, d ∈ x :: l → valid_name d ∧ d ≠ ".") →
                 String.concat "/" (x :: l) ≠ ".") as Hdot.
  { intros x [|y l] Hl Heq.
    - destruct (Hl x) as [_ Hx]; [by left|]. done.
    - pose proof (has_sep_concat x y l) as Hs. by rewrite Heq in Hs. }
  destruct rel1 as [|x1 l1], rel2 as [|x2 l2]; [done| | |].
  - exfalso. by eapply Hdot.
  - exfalso. by eapply Hdot.
  - apply concat_inj; try done; intros d Hd; [by apply H1|by apply H2].
Qed.

Lemma rev_app_spec s t : String.rev_app s t = String.rev s +:+ t.
Proof.
  revert t. induction s as [|c s IH]; intros t; [done|].
  unfold String.rev. simpl. rewrite !IH. by rewrite sapp_assoc.
Qed.

Lemma rev_cons c s : String.rev (String c s) = String.rev s +:+ String c "".
Proof. unfold String.rev at 1. simpl. apply rev_app_spec. Qed.

Lemma rev_app s t : String.rev (s +:+ t) = String.rev t +:+ String.rev s.
Proof.
  induction s as [|c s IH]; [by rewrite sapp_nil_l, sapp_nil_r|].
  by rewrite sapp_cons, !rev_cons, IH, sapp_assoc.
Qed.

Lemma rev_involutive s : String.rev (String.rev s) = s.
Proof.
  induction s as [|c s IH]; [done|]. by rewrite rev_cons, rev_app, IH.
Qed.

Lemma all_dots_app s t : Path.all_dots (s +:+ t) = Path.all_dots s && Path.all_dots t.
Proof.
  induction s as [|c s IH]; [done|].
  rewrite sapp_cons. simpl. by rewrite IH, andb_assoc.
Qed.

Lemma all_dots_rev s : Path.all_dots (String.rev s) = Path.all_dots s.
Proof.
  induction s as [|c s IH]; [done|].
  rewrite rev_cons, all_dots_app, IH. simpl.
  by rewrite andb_true_r, andb_comm.
Qed.

(** The stem [splitext] returns is the start of the name. *)
Lemma splitext_rev_prefix r : ∀ ext,
  ∃ e, (Path.splitext_rev r ext).1 +:+ e = String.rev r +:+ ext.
Proof.
  induction r as [|c r IH]; intros ext.
  - exists "". by rewrite sapp_nil_r.
  - simpl. destruct (Ascii.eqb c ".").
    + destruct (Path.all_dots r); simpl.
      * exists "". by rewrite sapp_nil_r.
      * exists (String c ext). by rewrite rev_cons, sapp_assoc.
    + destruct (IH (String c ext)) as [e He]. exists e.
      by rewrite He, rev_cons, sapp_assoc.
Qed.

Lemma splitext_prefix name : ∃ e, (Path.splitext name).1 +:+ e = name.
Proof.
  destruct (splitext_rev_prefix (String.rev name) "") as [e He].
  exists e. unfold Path.splitext. by rewrite He, rev_involutive, sapp_nil_r.
Qed.

Lemma splitext_no_sep name :
  Path.has_sep name = false → Path.has_sep (Path.splitext name).1 = false.
Proof.
  destruct (splitext_prefix name) as [e He]. intros H.
  rewrite <-He, has_sep_app in H. by apply orb_false_iff in H as [? _].
Qed.

Lemma splitext_rev_no_dot r : ∀ rest ext,
  has_dot r = false →
  Path.splitext_rev (r +:+ rest) ext
  = Path.splitext_rev rest (String.rev r +:+ ext).
Proof.
  induction r as [|c r IH]; intros rest ext Hr; [done|].
  simpl in Hr. apply orb_false_iff in Hr as [Hc Hr].
  rewrite sapp_cons. simpl. rewrite Hc, IH by done.
  by rewrite rev_cons, sapp_assoc.
Qed.

Lemma has_dot_rev s : has_dot (String.rev s) = has_dot s.
Proof.
  assert (∀ a b, has_dot (a +:+ b) = has_dot a || has_dot b) as Happ.
  { induction a as [|c a IH]; intros b; [done|].
    rewrite sapp_cons. simpl. by rewrite IH, orb_assoc. }
  induction s as [|c s IH]; [done|].
  rewrite rev_cons, Happ, IH. simpl. by rewrite orb_false_r, orb_comm.
Qed.

(** [splitext] on [doc.ext]: the stem is [doc], unless [doc] is made of
    dots only. *)
Lemma splitext_doc_ext doc ext :
  Path.all_dots doc = false → has_dot ext = false →
  Path.splitext (doc +:+ "." +:+ ext) = (doc, "." +:+ ext).
Proof.
  intros Hdoc Hext. unfold Path.splitext.
  rewrite !rev_app, sapp_assoc.
  rewrite splitext_rev_no_dot by by rewrite has_dot_rev.
  rewrite rev_involutive, sapp_nil_r.
  change (String.rev ".") with ".". rewrite sapp_cons, sapp_nil_l. simpl.
  by rewrite all_dots_rev, Hdoc, rev_involutive.
Qed.

(** The destination, spelled out. *)
Lemma output_path_spelled output_folder rel file :
  (∀ d, d ∈ rel → valid_name d) →
  output_path output_folder rel file
  = Path.dirprefix output_folder +:+ relpath rel +:+ "/"
    +:+ (Path.splitext file).1 +:+ ".cbz".
Proof.
  intros Hrel. unfold output_path, output_subdir, Path.join.
  rewrite dirprefix_open_ended
    by by apply open_ended_app, relpath_open_ended.
  by rewrite !sapp_assoc.
Qed.

(** Two sources share a destination exactly when they share the
    directory and the stem. *)
Lemma output_path_inj output_folder rel1 file1 rel2 file2 :
  (∀ d, d ∈ rel1 → valid_name d ∧ d ≠ ".") →
  (∀ d, d ∈ rel2 → valid_name d ∧ d ≠ ".") →
  valid_name file1 → valid_name file2 →
  output_path output_folder rel1 file1 = output_path output_folder rel2 file2
  ↔ rel1 = rel2 ∧ (Path.splitext file1).1 = (Path.splitext file2).1.
Proof.
  intros H1 H2 [_ Hf1] [_ Hf2]. split.
  - rewrite !output_path_spelled
      by (intros d Hd; first [by apply H1|by apply H2]).
    intros H. apply String.app_inj in H.
    change ("/" +:+ ?t) with (String "/" t) in H.
    apply last_sep_unique in H as [Hrel Hstem].
    + split; [by apply relpath_inj|]. by apply sapp_inv_r in Hstem.
    + rewrite has_sep_app, splitext_no_sep by done. done.
    + rewrite has_sep_app, splitext_no_sep by done. done.
  - intros [-> Hstem]. unfold output_path. by rewrite Hstem.
Qed.

End path_facts.

(** ** Facts about page names *)

Section name_facts.

Lemma elem_of_range_from x n : ∀ lo,
  x ∈ Py.range_from lo n ↔ lo ≤ x < lo + N.of_nat n.
Proof.
  induction n as [|n IH]; intros lo; simpl.
  - rewrite elem_of_nil. lia.
  - rewrite elem_of_cons, IH. lia.
Qed.

Lemma elem_of_range x lo hi : x ∈ Py.range lo hi ↔ lo ≤ x < hi.
Proof. unfold Py.range. rewrite elem_of_range_from. lia. Qed.

(** [range] counts upwards. *)
Lemma range_from_sorted n : ∀ lo, StronglySorted N.lt (Py.range_from lo n).
Proof.
  induction n as [|n IH]; intros lo; simpl; constructor; [apply IH|].
  apply Forall_forall. intros x Hx%elem_of_range_from. lia.
Qed.

Lemma ltb_le a b : String.ltb a b = true → String.le a b.
Proof.
  unfold String.le, String.leb, String.ltb.
  by destruct (String.compare a b).
Qed.

Lemma ltb_irrefl a : String.ltb a a = false.
Proof.
  unfold String.ltb. pose proof (String.compare_antisym a a) as H.
  by destruct (String.compare a a).
Qed.

Lemma ltb_trans a b c :
  String.ltb a b = true → String.ltb b c = true → String.ltb a c = true.
Proof.
  intros Hab Hbc.
  assert (String.le a c) as Hac by (etrans; by apply ltb_le).
  unfold String.le, String.leb in Hac. unfold String.ltb in *.
  destruct (String.compare a c) eqn:Hcmp; [|done..].
  apply String.compare_eq_iff in Hcmp as ->.
  rewrite String.compare_antisym in Hab.
  by destruct (String.compare b c).
Qed.

Lemma names_ascend_checked : forallb names_ascend (Py.range 1 9999) = true.
Proof. vm_compute. reflexivity. Qed.

Lemma names_plain_checked : forallb name_is_plain (Py.range 1 10000) = true.
Proof. vm_compute. reflexivity. Qed.

Lemma page_name_next page :
  1 ≤ page → page < 9999 →
  String.ltb (page_name page) (page_name (page + 1)) = true.
Proof.
  intros Hlo Hhi.
  assert (In page (Py.range 1 9999)) as Hin
    by (apply list_elem_of_In, elem_of_range; lia).
  exact (proj1 (forallb_forall names_ascend (Py.range 1 9999))
           names_ascend_checked page Hin).
Qed.

Lemma page_name_plain page :
  1 ≤ page ≤ 9999 → name_is_plain page = true.
Proof.
  intros Hp.
  assert (In page (Py.range 1 10000)) as Hin
    by (apply list_elem_of_In, elem_of_range; lia).
  exact (proj1 (forallb_forall name_is_plain (Py.range 1 10000))
           names_plain_checked page Hin).
Qed.

(** Up to four digits, the order of the names is the order of the
    pages. *)
Lemma page_name_lt page1 page2 :
  1 ≤ page1 → page1 < page2 → page2 ≤ 9999 →
  String.ltb (page_name page1) (page_name page2) = true.
Proof.
  intros Hlo Hlt Hhi.
  assert (∃ k : nat, page2 = page1 + 1 + N.of_nat k) as [k ->].
  { exists (N.to_nat (page2 - page1 - 1)). lia. }
  clear Hlt. induction k as [|k IH].
  - rewrite N.add_0_r. apply page_name_next; lia.
  - eapply ltb_trans; [apply IH; lia|].
    replace (page1 + 1 + N.of_nat (S k)) with (page1 + 1 + N.of_nat k + 1) by lia.
    apply page_name_next; lia.
Qed.

Lemma page_name_inj page1 page2 :
  1 ≤ page1 ≤ 9999 → 1 ≤ page2 ≤ 9999 →
  page_name page1 = page_name page2 → page1 = page2.
Proof.
  intros H1 H2 Heq.
  destruct (N.lt_trichotomy page1 page2) as [Hlt|[?|Hlt]]; [|done|].
  - pose proof (page_name_lt page1 page2) as H.
    rewrite Heq, ltb_irrefl in H. by discriminate H; lia.
  - pose proof (page_name_lt page2 page1) as H.
    rewrite Heq, ltb_irrefl in H. by discriminate H; lia.
Qed.

Lemma page_name_no_sep page :
  1 ≤ page ≤ 9999 → Path.has_sep (page_name page) = false.
Proof.
  intros H%page_name_plain. unfold name_is_plain in H.
  apply andb_true_iff in H as [H _]. by apply negb_true_iff in H.
Qed.

Lemma page_stem_no_dot page :
  1 ≤ page ≤ 9999 → has_dot ("page_" +:+ Py.fmt_04d page) = false.
Proof.
  intros H%page_name_plain. unfold name_is_plain in H.
  apply andb_true_iff in H as [_ H]. by apply negb_true_iff in H.
Qed.

(** The names of ascending pages are in the order [sort] leaves them
    in. *)
Lemma page_names_sorted pages :
  StronglySorted N.lt pages → (∀ page, page ∈ pages → 1 ≤ page ≤ 9999) →
  StronglySorted String.le (map page_name pages).
Proof.
  induction 1 as [|page pages Hsorted IH Hall]; intros Hrange; simpl;
    constructor.
  - apply IH. intros p Hp. apply Hrange. by right.
  - apply Forall_forall. intros name Hname.
    apply list_elem_of_In, in_map_iff in Hname as (q & <- & Hq).
    apply list_elem_of_In in Hq. rewrite Forall_forall in Hall.
    apply ltb_le, page_name_lt.
    + apply Hrange. by left.
    + by apply Hall.
    + apply Hrange. by right.
Qed.

End name_facts.

(** ** The page counter *)

Section page_count_facts.

Context (E : Env).

Lemma get_page_count_run input_file w :
  get_page_count E input_file w =
  (Ret (page_count E input_file),
   World (files w) (dirs w)
         (count_notices E input_file ++ console w)
         (count_cmds E input_file ++ processes w)).
Proof.
  unfold get_page_count, count_with_djvused, count_with_ddjvu, page_count,
    count_notices, count_cmds, primary_count, fallback_count,
    try_except, subprocess_run, py_int, print, modify, raise, spawned,
    mbind, M_bind, mret, M_ret, djvused_cmd, listing_cmd.
  destruct w as [fs ds con ps]; simpl.
  destruct (subprocess_result E [DJVUSED_PATH; input_file; "-e"; "n"])
    as [e1|rc1 out1 wr1]; simpl.
  - destruct (subprocess_result E [DDJVU_PATH; "-l"; input_file])
      as [e2|rc2 out2 wr2]; simpl; [done|].
    destruct (rc2 =? 0)%Z; simpl; [|done].
    by destruct (page_lines out2).
  - destruct ((rc1 =? 0)%Z && Py.isdigit (Py.strip out1)); simpl.
    + destruct (Py.int (Py.strip out1)); simpl; [done|].
      destruct (subprocess_result E [DDJVU_PATH; "-l"; input_file])
        as [e2|rc2 out2 wr2]; simpl; [done|].
      destruct (rc2 =? 0)%Z; simpl; [|done].
      by destruct (page_lines out2).
    + destruct (subprocess_result E [DDJVU_PATH; "-l"; input_file])
        as [e2|rc2 out2 wr2]; simpl; [done|].
      destruct (rc2 =? 0)%Z; simpl; [|done].
      by destruct (page_lines out2).
Qed.

Lemma tool_fails_primary input_file :
  tool_fails E (djvused_cmd input_file) → primary_count E input_file = None.
Proof.
  unfold tool_fails, primary_count.
  destruct (subprocess_result _ _) as [|rc out wr]; [done|].
  intros Hrc. by destruct (Z.eqb_spec rc 0).
Qed.

Lemma tool_fails_fallback input_file :
  tool_fails E (listing_cmd input_file) → fallback_count E input_file = None.
Proof.
  unfold tool_fails, fallback_count.
  destruct (subprocess_result _ _) as [|rc out wr]; [done|].
  intros Hrc. by destruct (Z.eqb_spec rc 0).
Qed.

Lemma default_notice_not_error input_file :
  default_notice ∈ count_notices E input_file ↔
  primary_count E input_file = None ∧ fallback_count E input_file = None.
Proof.
  unfold count_notices.
  assert (∀ e, default_notice ≠ "Error getting page count with ddjvu -l: " +:+ e)
    as Hl by (intros e; rewrite sapp_cons; discriminate).
  assert (∀ e, default_notice ≠ "Error getting page count with djvused: " +:+ e)
    as Hd by (intros e; rewrite sapp_cons; discriminate).
  assert (default_notice ∉
    match subprocess_result E (djvused_cmd input_file) with
    | Raises e => ["Error getting page count with djvused: " +:+ e]
    | Completes returncode stdout _ =>
        if (returncode =? 0)%Z && Py.isdigit (Py.strip stdout)
        then match Py.int (Py.strip stdout) with
             | Some _ => []
             | None =>
                 ["Error getting page count with djvused: "
                  +:+ "invalid literal for int() with base 10"]
             end
        else []
    end) as Hfirst.
  { destruct (subprocess_result _ _) as [e|rc out wr].
    - rewrite list_elem_of_singleton. apply Hd.
    - destruct (_ && _); [|apply not_elem_of_nil].
      destruct (Py.int _); [apply not_elem_of_nil|].
      rewrite list_elem_of_singleton. apply Hd. }
  assert (default_notice ∉
    match subprocess_result E (listing_cmd input_file) with
    | Raises e => ["Error getting page count with ddjvu -l: " +:+ e]
    | _ => []
    end) as Hsecond.
  { destruct (subprocess_result E (listing_cmd _)) as [e|rc out wr].
    - rewrite list_elem_of_singleton. apply Hl.
    - apply not_elem_of_nil. }
  rewrite elem_of_app.
  destruct (primary_count E input_file) as [n|].
  { split; [intros [H|H]; [by apply not_elem_of_nil in H|done]|by intros [? _]]. }
  rewrite elem_of_app.
  destruct (fallback_count E input_file) as [n|].
  { split; [intros [[H|H]|H]; [by apply not_elem_of_nil in H|done..]|by intros [_ ?]]. }
  split; [done|]. intros _. left. left. by apply list_elem_of_singleton.
Qed.

End page_count_facts.

(** C6, counterexample: when the script evaluator exits with status 0 and
    prints [0], [get_page_count] returns 0, which is not positive. *)
Lemma get_page_count_zero :
  ¬ ∃ n, 0 < n ∧
         result (get_page_count empty_document_env "book.djvu" empty_world) = Ret n.
Proof.
  intros (n & Hn & H). rewrite get_page_count_run in H.
  vm_compute in H. injection H as <-. lia.
Qed.

(** C6, amended: [get_page_count] never raises; it returns a
    non-negative integer, and when both tools fail (the call raises or
    the exit status is not 0) the integer is 100. *)
Theorem get_page_count_never_fails (E : Env) (input_file : string) (w : world) :
  ∃ n : N,
    result (get_page_count E input_file w) = Ret n ∧
    (tool_fails E (djvused_cmd input_file) →
     tool_fails E (listing_cmd input_file) → n = 100).
Proof.
  exists (page_count E input_file). rewrite get_page_count_run. split; [done|].
  intros H1%tool_fails_primary H2%tool_fails_fallback.
  unfold page_count. by rewrite H1, H2.
Qed.

Lemma get_page_count_never_fails_witness :
  result (get_page_count no_tools_env "book.djvu" empty_world) = Ret 100.
Proof.
  destruct (get_page_count_never_fails no_tools_env "book.djvu" empty_world)
    as (n & Hn & Hdefault).
  rewrite Hn. f_equal. apply Hdefault; exact I.
Defined.

(** C7: the fallback chain of [get_page_count] is ordered.  The script
    evaluator is spawned first, and when it exits with status 0 and a
    decimal number, that number is returned and nothing else is spawned.
    Otherwise the page lister is spawned next, and its count of page
    lines is returned when it exits with status 0 and has at least one
    such line.  The notice of the default value is printed exactly when
    neither tool gave a count, and then the result is 100. *)
Theorem page_count_fallback_chain (E : Env) (input_file : string) (w : world) :
  let r := get_page_count E input_file w in
  (∀ n, primary_count E input_file = Some n →
        result r = Ret n ∧
        processes (final r) = djvused_cmd input_file :: processes w)
  ∧ (primary_count E input_file = None →
     processes (final r)
       = listing_cmd input_file :: djvused_cmd input_file :: processes w
     ∧ ∀ n, fallback_count E input_file = Some n → result r = Ret n)
  ∧ (∃ notices, console (final r) = notices ++ console w ∧
       (default_notice ∈ notices ↔
        primary_count E input_file = None ∧ fallback_count E input_file = None))
  ∧ (primary_count E input_file = None → fallback_count E input_file = None →
     result r = Ret 100).
Proof.
  intros r. subst r. rewrite get_page_count_run. unfold result, final; simpl.
  unfold page_count, count_cmds. split; [|split; [|split]].
  - intros n Hn. by rewrite Hn.
  - intros Hp. rewrite Hp. split; [done|]. intros n Hn. by rewrite Hn.
  - exists (count_notices E input_file). split; [done|].
    apply default_notice_not_error.
  - by intros -> ->.
Qed.

(** ** The page extractor *)

Ltac unfold_monad :=
  unfold mbind, M_bind, mret, M_ret, try_except, try_finally, raise, print,
    modify, gets, result, final in *.

Ltac unfold_extract :=
  unfold extract_page, subprocess_run, os_path_exists, pil_reencode, os_remove,
    spawned, set_files in *;
  unfold_monad.

Section extract_page_facts.

Context (E : Env).
Implicit Types (w : world) (page quality : N).

Lemma tiff_name_png stem : ∃ t, tiff_name (stem +:+ ".png") = t +:+ ".tiff".
Proof. apply replace_png. Qed.


Lemma path_exists_file p w :
  is_Some (files w !! p) → path_exists p w = true.
Proof. intros H. unfold path_exists. by rewrite bool_decide_eq_true_2. Qed.

Lemma path_exists_false p w :
  path_exists p w = false → files w !! p = None.
Proof.
  unfold path_exists. intros [H _]%orb_false_iff.
  apply bool_decide_eq_false in H. by apply eq_None_not_Some.
Qed.

(** [extract_page] catches whatever is raised inside it. *)
Lemma extract_page_returns ddjvu input_file output_file page quality w :
  ∃ ok, result (extract_page E ddjvu input_file output_file page quality w)
        = Ret ok.
Proof. unfold_extract. repeat (case_match; simplify_eq/=); eauto. Qed.

(** [extract_page] touches two paths at most. *)
Lemma extract_page_frame ddjvu input_file output_file page quality w :
  let w' := final (extract_page E ddjvu input_file output_file page quality w) in
  dirs w' = dirs w ∧
  ∀ p, p ≠ output_file → p ≠ tiff_name output_file →
       files w' !! p = files w !! p.
Proof.
  unfold_extract.
  repeat (case_match; simplify_eq/=); (split; [done|]); intros p ??;
    by rewrite ?lookup_delete_ne, ?lookup_insert_ne.
Qed.





End extract_page_facts.





(** ** Facts about TIFF names *)

Section tiff_facts.

Implicit Types s t x y : string.

Lemma prefix_png_inv s :
  String.prefix ".png" s = true → ∃ r, s = ".png" +:+ r.
Proof. apply prefix_inv. Qed.

(** A separator is never part of an occurrence of [.png], so [replace]
    works on both sides of it independently. *)
Lemma replace_sep_length n : ∀ x y,
  (String.length x < n)%nat →
  Py.replace ".png" ".tiff" (x +:+ String "/" y)
  = Py.replace ".png" ".tiff" x +:+ String "/" (Py.replace ".png" ".tiff" y).
Proof.
  induction n as [|n IH]; intros x y Hn; [lia|].
  rewrite (replace_unfold (x +:+ _)), (replace_unfold x).
  destruct (String.prefix ".png" (x +:+ String "/" y)) eqn:Hp.
  - apply prefix_inv in Hp as [r Hr].
    destruct x as [|c1 [|c2 [|c3 [|c4 x]]]]; try done.
    rewrite !sapp_cons in Hr. injection Hr as -> -> -> -> _.
    change (String "." (String "p" (String "n" (String "g" x))))
      with (".png" +:+ x).
    change 4%nat with (String.length ".png").
    rewrite prefix_app, drop_app, (sapp_assoc ".png"), drop_app.
    rewrite IH by (simpl in Hn; lia). by rewrite sapp_assoc.
  - destruct (String.prefix ".png" x) eqn:Hpx.
    { apply prefix_inv in Hpx as [r ->].
      by rewrite sapp_assoc, prefix_app in Hp. }
    destruct x as [|c x].
    + rewrite !sapp_nil_l. reflexivity.
    + rewrite sapp_cons. rewrite IH by (simpl in Hn; lia). reflexivity.
Qed.

Lemma replace_sep x y :
  Py.replace ".png" ".tiff" (x +:+ String "/" y)
  = Py.replace ".png" ".tiff" x +:+ String "/" (Py.replace ".png" ".tiff" y).
Proof. apply (replace_sep_length (S (String.length x))). lia. Qed.

(** On [stem.png] with a stem without dots, [replace] changes the
    extension only. *)
Lemma replace_no_dot s :
  has_dot s = false → Py.replace ".png" ".tiff" (s +:+ ".png") = s +:+ ".tiff".
Proof.
  induction s as [|c s IH]; intros Hs; [done|].
  simpl in Hs. apply orb_false_iff in Hs as [Hc Hs].
  rewrite replace_unfold, sapp_cons.
  assert (String.prefix ".png" (String c (s +:+ ".png")) = false) as ->.
  { cbn [String.prefix]. by destruct (ascii_dec "." c) as [<-|_]. }
  by rewrite IH, sapp_cons.
Qed.

Lemma last_char_snoc s c : Path.last_char s = Some c → ∃ x, s = x +:+ String c "".
Proof.
  induction s as [|d s IH]; [done|]. destruct s as [|e s].
  - intros [= ->]. by exists "".
  - intros H. destruct (IH H) as [x ->]. by exists (String d x).
Qed.

Lemma last_char_None s : Path.last_char s = None → s = "".
Proof.
  induction s as [|c s IH]; [done|]. destruct s as [|d s]; [done|].
  intros H. by apply IH in H.
Qed.

(** A directory prefix is empty or ends in a separator. *)
Lemma dirprefix_shape d : Path.dirprefix d = "" ∨ ∃ x, Path.dirprefix d = x +:+ "/".
Proof.
  unfold Path.dirprefix. destruct (Path.last_char d) as [c|] eqn:Hlast.
  - right. destruct (Ascii.eqb_spec c Path.sep) as [->|]; [|by exists d].
    by apply last_char_snoc in Hlast.
  - left. by apply last_char_None.
Qed.

(** The TIFF name of a page file: a prefix that does not depend on the
    page, the stem of the page name, and the extension. *)
Lemma tiff_name_page_filename temp_dir :
  ∃ t, ∀ page, 1 ≤ page ≤ 9999 →
    tiff_name (page_filename temp_dir page)
    = t +:+ ("page_" +:+ Py.fmt_04d page) +:+ ".tiff".
Proof.
  unfold tiff_name, page_filename, page_name, Path.join.
  destruct (dirprefix_shape temp_dir) as [->|[x ->]].
  - exists "". intros page Hpage. rewrite !sapp_nil_l, <-sapp_assoc.
    by rewrite replace_no_dot by by apply page_stem_no_dot.
  - exists (Py.replace ".png" ".tiff" x +:+ "/"). intros page Hpage.
    rewrite sapp_assoc. change ("/" +:+ ?s) with (String "/" s).
    rewrite replace_sep. rewrite <-(sapp_assoc "page_").
    rewrite replace_no_dot by by apply page_stem_no_dot.
    by rewrite !sapp_assoc.
Qed.

Lemma page_filename_inj temp_dir page1 page2 :
  1 ≤ page1 ≤ 9999 → 1 ≤ page2 ≤ 9999 →
  page_filename temp_dir page1 = page_filename temp_dir page2 → page1 = page2.
Proof.
  intros H1 H2 Heq. unfold page_filename, Path.join in Heq.
  apply String.app_inj in Heq. by apply page_name_inj.
Qed.

Lemma tiff_name_inj temp_dir page1 page2 :
  1 ≤ page1 ≤ 9999 → 1 ≤ page2 ≤ 9999 →
  tiff_name (page_filename temp_dir page1)
  = tiff_name (page_filename temp_dir page2) →
  page1 = page2.
Proof.
  intros H1 H2 Heq. destruct (tiff_name_page_filename temp_dir) as [t Ht].
  rewrite !Ht in Heq by done. apply String.app_inj in Heq.
  apply sapp_inv_r in Heq. apply page_name_inj; [done..|].
  unfold page_name. by rewrite <-!sapp_assoc, Heq.
Qed.

Lemma page_filename_png temp_dir page :
  ∃ stem, page_filename temp_dir page = stem +:+ ".png".
Proof.
  exists (Path.dirprefix temp_dir +:+ "page_" +:+ Py.fmt_04d page).
  unfold page_filename, page_name, Path.join. by rewrite !sapp_assoc.
Qed.

Lemma tiff_name_not_page temp_dir page1 page2 :
  tiff_name (page_filename temp_dir page1) ≠ page_filename temp_dir page2.
Proof.
  destruct (page_filename_png temp_dir page1) as [s1 ->].
  destruct (page_filename_png temp_dir page2) as [s2 ->].
  destruct (tiff_name_png s1) as [t ->]. apply tiff_not_png.
Qed.

End tiff_facts.

(** ** The document converter *)

Section monad_facts.

Lemma run_bind {A B} (m : M A) (f : A → M B) w :
  (m ≫= f) w =
  match m w with
  | (Ret a, w') => f a w'
  | (Exc e, w') => (Exc e, w')
  end.
Proof. reflexivity. Qed.

Lemma run_bind_ret {A B} (m : M A) (f : A → M B) w a w' :
  m w = (Ret a, w') → (m ≫= f) w = f a w'.
Proof. intros H. by rewrite run_bind, H. Qed.

Lemma run_bind_exc {A B} (m : M A) (f : A → M B) w e w' :
  m w = (Exc e, w') → (m ≫= f) w = (Exc e, w').
Proof. intros H. by rewrite run_bind, H. Qed.

Lemma run_print line w : print line w = (Ret tt, say line w).
Proof. reflexivity. Qed.

End monad_facts.

Section convert_facts.

Context (E : Env).
Implicit Types (w : world) (quality num_pages page : N).

Lemma extract_step_run input_file temp_dir quality num_pages page w :
  extract_step E input_file temp_dir quality num_pages page w
  = (Ret (succeeded (extract_step E input_file temp_dir quality num_pages page w)),
     final (extract_step E input_file temp_dir quality num_pages page w)).
Proof.
  unfold succeeded, extract_step. unfold_monad. simpl.
  destruct (extract_page_returns E DDJVU_PATH input_file
              (page_filename temp_dir page) page quality
              (say ("Extracting page " +:+ Py.str page +:+ "/"
                    +:+ Py.str num_pages +:+ "...") w)) as [ok Hok].
  destruct (extract_page _ _ _ _ _ _ _) as [[b|e] w'];
    unfold result in Hok; simpl in Hok; [|done].
  by destruct b.
Qed.

(** The loop never raises; it counts the pages that succeeded. *)
Lemma extract_pages_run input_file temp_dir quality num_pages pages :
  ∀ successful w,
    extract_pages E input_file temp_dir quality num_pages pages successful w
    = (Ret (successful + N.of_nat (length (successes
              (page_results E input_file temp_dir quality num_pages pages w)))),
       world_after_pages E input_file temp_dir quality num_pages pages w).
Proof.
  induction pages as [|page rest IH]; intros successful w.
  - simpl. unfold mret, M_ret. f_equal. f_equal. unfold successes. simpl. lia.
  - cbn [extract_pages page_results world_after_pages].
    set (r := extract_step E input_file temp_dir quality num_pages page w) in *.
    assert (extract_pages_step :
      (print ("Extracting page " +:+ Py.str page +:+ "/" +:+ Py.str num_pages
              +:+ "...");;
       ok ← extract_page E DDJVU_PATH input_file
              (page_filename temp_dir page) page quality;
       if ok : bool
       then extract_pages E input_file temp_dir quality num_pages rest
              (successful + 1)
       else
         print ("Warning: Failed to extract page " +:+ Py.str page);;
         extract_pages E input_file temp_dir quality num_pages rest
           successful) w
      = extract_pages E input_file temp_dir quality num_pages rest
          (if succeeded r then successful + 1 else successful) (final r)).
    { subst r. clear. unfold succeeded, extract_step. unfold_monad. simpl.
      match goal with
      | |- context [extract_page E ?a ?b ?c ?d ?e ?w0] =>
          destruct (extract_page_returns E a b c d e w0) as [ok Hok];
          destruct (extract_page E a b c d e w0) as [[[]|?] ?]
      end; done. }
    rewrite extract_pages_step, IH. unfold successes. simpl.
    destruct (succeeded r); simpl; f_equal; f_equal; lia.
Qed.

(** What a conversion returns and the world it leaves, by the phases
    of [convert_djvu_to_cbz]. *)
Lemma convert_run input_file output_file quality w :
  convert_djvu_to_cbz E input_file output_file quality w =
  let temp_dir := scratch_name E w in
  let w2 := extracted_world E input_file output_file quality w in
  match successful_pages E input_file output_file quality w with
  | [] =>
      (Ret false,
       cleanup temp_dir
         (say ("Error: Could not extract any pages from " +:+ input_file) w2))
  | _ =>
      match create_cbz E output_file temp_dir
              (say ("Creating CBZ file: " +:+ output_file) w2) with
      | (Ret png_files, w3) =>
          (Ret true,
           cleanup temp_dir
             (say ("Successfully converted " +:+ input_file
                   +:+ " to CBZ format with "
                   +:+ Py.str (N.of_nat (length png_files)) +:+ " pages") w3))
      | (Exc e, w3) =>
          (Ret false,
           cleanup temp_dir
             (say ("Error converting " +:+ input_file +:+ ": " +:+ e) w3))
      end
  end.
Proof.
  unfold convert_djvu_to_cbz, successful_pages, extracted_world.
  rewrite run_bind, run_print. unfold mkdtemp at 1. rewrite run_bind.
  rewrite run_bind, run_print.
  unfold try_finally, try_except, convert_body.
  rewrite run_bind, get_page_count_run, run_bind, run_print.
  rewrite run_bind, extract_pages_run.
  change (say _ (World _ _ _ _)) with (counted_world E input_file output_file w).
  set (results := page_results _ _ _ _ _ _ _).
  set (w2 := world_after_pages _ _ _ _ _ _ _).
  change (scratch_name E (say _ w)) with (scratch_name E w) in *.
  destruct (successes results) as [|page pages] eqn:Hs.
  - reflexivity.
  - assert ((0 + N.of_nat (length (page :: pages)) =? 0) = false) as ->.
    { apply N.eqb_neq. simpl. lia. }
    rewrite run_bind, run_print, run_bind.
    by destruct (create_cbz _ _ _ _) as [[png_files|e] w3].
Qed.




Lemma cleanup_console temp_dir w :
  console (cleanup temp_dir w)
  = ("Cleaning up temporary directory: " +:+ temp_dir) :: console w.
Proof. reflexivity. Qed.




End convert_facts.






(** ** The batch orchestrator *)

Section discovery_facts.

Implicit Types (w : world) (jobs : list (string * string)).

Lemma grows_refl w : grows w w.
Proof. by repeat split. Qed.

Lemma grows_trans w1 w2 w3 : grows w1 w2 → grows w2 w3 → grows w1 w3.
Proof.
  intros (Hf1 & Hp1 & Hd1) (Hf2 & Hp2 & Hd2).
  repeat split; [congruence..|set_solver].
Qed.

Lemma grows_say line w : grows w (say line w).
Proof. by repeat split. Qed.

Lemma grows_makedirs p w : grows w (final (os_makedirs p w)).
Proof. repeat split; simpl; set_solver. Qed.

Lemma path_exists_grows p w w' :
  grows w w' → path_exists p w = true → path_exists p w' = true.
Proof.
  intros (Hf & _ & Hd). unfold path_exists. rewrite Hf.
  rewrite !orb_true_iff, !bool_decide_eq_true.
  intros [?|?]; [by left|right; by apply Hd].
Qed.

Lemma path_exists_makedirs p w : path_exists p (final (os_makedirs p w)) = true.
Proof.
  unfold path_exists. apply orb_true_iff. right.
  apply bool_decide_eq_true. simpl. set_solver.
Qed.

(** The inner loop appends the jobs of the directory, in order, and
    leaves the output sub-directory in place when there is a job. *)
Lemma discover_files_run input_folder output_folder rel fs :
  ∀ jobs w, ∃ w',
    discover_files input_folder output_folder rel fs jobs w
    = (Ret (jobs ++ jobs_in input_folder output_folder (rel, fs)), w')
    ∧ grows w w'
    ∧ (List.filter is_djvu fs ≠ [] →
       path_exists (output_subdir output_folder rel) w' = true).
Proof.
  unfold jobs_in. simpl.
  induction fs as [|file rest IH]; intros jobs w.
  - exists w. simpl. rewrite app_nil_r. split; [done|]. split; [apply grows_refl|done].
  - simpl. destruct (is_djvu file) eqn:Hfile.
    + rewrite run_bind, run_print. unfold os_path_exists, gets.
      rewrite run_bind.
      destruct (path_exists (output_subdir output_folder rel) (say _ w)) eqn:Hex.
      * rewrite run_bind. unfold mret at 1, M_ret at 1.
        destruct (IH (jobs ++ [job_of input_folder output_folder rel file])
                     (say ("Found DJVU file: " +:+ file) w))
          as (w' & Hrun & Hgrow & Hdir).
        exists w'. split; [|split].
        -- unfold job_of at 1 in Hrun. rewrite Hrun. simpl.
           by rewrite <-app_assoc.
        -- eapply grows_trans; [apply grows_say|exact Hgrow].
        -- intros _. by eapply path_exists_grows.
      * rewrite run_bind.
        destruct (IH (jobs ++ [job_of input_folder output_folder rel file])
                     (final (os_makedirs (output_subdir output_folder rel)
                               (say ("Found DJVU file: " +:+ file) w))))
          as (w' & Hrun & Hgrow & Hdir).
        exists w'. split; [|split].
        -- unfold job_of at 1 in Hrun. unfold os_makedirs, modify at 1.
           unfold os_makedirs, modify, final in Hrun. simpl in Hrun.
           rewrite Hrun. simpl. by rewrite <-app_assoc.
        -- eapply grows_trans; [apply grows_say|].
           eapply grows_trans; [apply grows_makedirs|exact Hgrow].
        -- intros _. eapply path_exists_grows; [exact Hgrow|].
           apply path_exists_makedirs.
    + destruct (IH jobs w) as (w' & Hrun & Hgrow & Hdir). by exists w'.
Qed.

(** The outer loop: the jobs of the walk, in order, each with its
    output sub-directory in place. *)
Lemma discover_run input_folder output_folder walk :
  ∀ jobs w, ∃ w',
    discover input_folder output_folder walk jobs w
    = (Ret (jobs ++ jobs_of_walk input_folder output_folder walk), w')
    ∧ grows w w'
    ∧ (∀ rel fs, (rel, fs) ∈ walk → List.filter is_djvu fs ≠ [] →
         path_exists (output_subdir output_folder rel) w' = true).
Proof.
  induction walk as [|[rel fs] rest IH]; intros jobs w.
  - exists w. simpl. rewrite app_nil_r. split; [done|].
    split; [apply grows_refl|]. intros rel fs H. by apply elem_of_nil in H.
  - simpl. rewrite run_bind.
    destruct (discover_files_run input_folder output_folder rel fs jobs w)
      as (w1 & Hrun1 & Hgrow1 & Hdir1).
    rewrite Hrun1.
    destruct (IH (jobs ++ jobs_in input_folder output_folder (rel, fs)) w1)
      as (w' & Hrun & Hgrow & Hdir).
    exists w'. split; [|split].
    + rewrite Hrun. by rewrite <-app_assoc.
    + by eapply grows_trans.
    + intros rel' fs' [Heq|Hin]%elem_of_cons Hjobs.
      * injection Heq as -> ->. eapply path_exists_grows; eauto.
      * by eapply Hdir.
Qed.

Lemma elem_of_jobs_of_walk input_folder output_folder walk j :
  j ∈ jobs_of_walk input_folder output_folder walk ↔
  ∃ rel fs file, (rel, fs) ∈ walk ∧ file ∈ fs ∧ is_djvu file = true ∧
                 j = job_of input_folder output_folder rel file.
Proof.
  unfold jobs_of_walk, jobs_in. rewrite list_elem_of_In, in_flat_map. split.
  - intros ([rel fs] & Hwalk & Hj). simpl in Hj.
    apply in_map_iff in Hj as (file & <- & Hfile).
    apply filter_In in Hfile as [Hfile Hdjvu].
    exists rel, fs, file. by rewrite !list_elem_of_In.
  - intros (rel & fs & file & Hwalk & Hfile & Hdjvu & ->).
    exists (rel, fs). rewrite <-list_elem_of_In. split; [done|]. simpl.
    apply in_map. apply filter_In. by rewrite <-list_elem_of_In.
Qed.

Context (E : Env).



End discovery_facts.



(** C9, counterexample: a folder that holds [doc.djvu] and [doc.djv]
    gives two jobs with different sources and one destination. *)
Lemma twin_sources_share_destination :
  ∃ jobs,
    result (discovery twin_env "in" (Some "out") 85 1 input_only_world)
      = Ret jobs ∧
    ¬ distinct_destinations jobs.
Proof.
  eexists. split; [vm_compute; reflexivity|].
  intros H.
  apply (H ("in/doc.djvu", "out/./doc.cbz") ("in/doc.djv", "out/./doc.cbz"));
    [| |done..].
  - by left.
  - right. by left.
Qed.

(** C9, amended: the discovery pairs every source document with the
    path that mirrors its place under the output folder: [doc.ext] in the
    sub-directory [a/b] goes to [<output>/a/b/doc.cbz].  Two sources have
    the same destination exactly when they are in the same directory and
    have the same stem; sources that differ in the directory or in the
    stem have different destinations. *)
Theorem destinations_mirror_sources (E : Env) (input_folder output_folder : string)
    (w : world) :
  valid_walk (os_walk E input_folder) →
  let walk := os_walk E input_folder in
  let jobs := jobs_of_walk input_folder output_folder walk in
  result (discover input_folder output_folder walk [] w) = Ret jobs ∧
  (∀ j, j ∈ jobs ↔
        ∃ rel fs file, (rel, fs) ∈ walk ∧ file ∈ fs ∧ is_djvu file = true ∧
                       j = (Path.join (walk_root input_folder rel) file,
                            output_path output_folder rel file)) ∧
  (∀ rel fs doc ext,
     (rel, fs) ∈ walk → rel ≠ [] →
     Path.all_dots doc = false → has_dot ext = false →
     output_path output_folder rel (doc +:+ "." +:+ ext)
     = Path.dirprefix output_folder +:+ String.concat "/" rel +:+ "/"
       +:+ doc +:+ ".cbz") ∧
  (∀ rel1 fs1 file1 rel2 fs2 file2,
     (rel1, fs1) ∈ walk → file1 ∈ fs1 → (rel2, fs2) ∈ walk → file2 ∈ fs2 →
     output_path output_folder rel1 file1 = output_path output_folder rel2 file2
     ↔ rel1 = rel2 ∧ (Path.splitext file1).1 = (Path.splitext file2).1).
Proof.
  intros Hvalid walk jobs. split; [|split; [|split]].
  - destruct (discover_run input_folder output_folder walk [] w)
      as (w' & Hrun & _). by rewrite Hrun.
  - intros j. apply elem_of_jobs_of_walk.
  - intros rel fs doc ext Hwalk Hrel Hdoc Hext.
    destruct (Hvalid rel fs Hwalk) as [Hnames _].
    rewrite output_path_spelled by (intros d Hd; by apply Hnames).
    rewrite splitext_doc_ext by done. by destruct rel.
  - intros rel1 fs1 file1 rel2 fs2 file2 Hwalk1 Hfile1 Hwalk2 Hfile2.
    destruct (Hvalid rel1 fs1 Hwalk1) as [Hrel1 Hfs1].
    destruct (Hvalid rel2 fs2 Hwalk2) as [Hrel2 Hfs2].
    apply output_path_inj; auto.
Qed.

Lemma destinations_mirror_sources_witness :
  output_path "out" ["a"; "b"] "doc.djvu" = "out/a/b/doc.cbz" ∧
  (output_path "out" [] "doc.djvu" = output_path "out" [] "doc.djv"
   ↔ [] = ([] : list string)
     ∧ (Path.splitext "doc.djvu").1 = (Path.splitext "doc.djv").1).
Proof.
  assert (valid_walk (os_walk twin_env "in")) as Hvalid.
  { intros rel fs Hin. simpl in Hin.
    apply elem_of_cons in Hin as [Hin|Hin];
      [|apply list_elem_of_singleton in Hin]; injection Hin as -> ->.
    - split; intros x Hx; [by apply elem_of_nil in Hx|].
      apply elem_of_cons in Hx as [->|Hx];
        [|apply list_elem_of_singleton in Hx as ->]; by split.
    - split; intros x Hx.
      + apply elem_of_cons in Hx as [->|Hx];
          [|apply list_elem_of_singleton in Hx as ->]; by repeat split.
      + apply list_elem_of_singleton in Hx as ->. by split. }
  destruct (destinations_mirror_sources twin_env "in" "out" input_only_world
              Hvalid) as (_ & _ & Hpath & Hinj).
  split.
  - apply (Hpath ["a"; "b"] ["doc.djvu"] "doc" "djvu"); try done.
    right. by left.
  - apply (Hinj [] ["doc.djvu"; "doc.djv"] "doc.djvu" [] ["doc.djvu"; "doc.djv"]
             "doc.djv").
    + by left.
    + by left.
    + by left.
    + right. by left.
Defined.

(** ** The pages a conversion leaves in the scratch directory *)

Section page_facts.

Context (E : Env).
Implicit Types (w : world) (page quality : N).

Lemma bool_decide_is_Some_Some {A} (x : A) : bool_decide (is_Some (Some x)) = true.
Proof. apply bool_decide_eq_true. eauto. Qed.

Lemma bool_decide_is_Some_None {A} : bool_decide (is_Some (@None A)) = false.
Proof. apply bool_decide_eq_false. by intros [? ?]. Qed.

Lemma path_exists_split p w :
  path_exists p w = false →
  files w !! p = None ∧ bool_decide (normdir p ∈ dirs w) = false.
Proof.
  unfold path_exists. intros [H ?]%orb_false_iff. split; [|done].
  apply bool_decide_eq_false in H. by apply eq_None_not_Some.
Qed.

Ltac oracle_case E :=
  match goal with
  | |- context [subprocess_result E ?cmd] =>
      destruct (subprocess_result E cmd) as [?|? ? []] eqn:?
  | |- context [(?rc =? 0)%Z] => destruct (rc =? 0)%Z eqn:?
  | |- context [pil_save_error E ?a ?b] => destruct (pil_save_error E a b) eqn:?
  | |- context [os_remove_error E ?a] => destruct (os_remove_error E a) eqn:?
  end.

(** One call on a target that is not there yet: the target ends up
    missing or holding the page; it holds the page after a success. *)
Lemma extract_page_fresh ddjvu input_file output_file page quality w :
  tiff_name output_file ≠ output_file →
  path_exists output_file w = false →
  path_exists (tiff_name output_file) w = false →
  let r := extract_page E ddjvu input_file output_file page quality w in
  (files (final r) !! output_file = None
   ∨ files (final r) !! output_file = Some (Raster input_file page PNG))
  ∧ (result r = Ret true →
     files (final r) !! output_file = Some (Raster input_file page PNG)).
Proof.
  intros Hne [Hpng Hpngd]%path_exists_split [Htiff Htiffd]%path_exists_split.
  unfold_extract. unfold path_exists.
  repeat (simpl;
          rewrite ?lookup_insert_eq, ?lookup_delete_eq, ?Hpng, ?Htiff, ?Hpngd,
            ?Htiffd, ?bool_decide_is_Some_Some, ?bool_decide_is_Some_None,
            ?andb_true_r, ?andb_false_r;
          rewrite ?lookup_insert_ne, ?lookup_delete_ne by done;
          try oracle_case E).
  all: split; [by eauto|]; by intros.
Qed.

(** With a renderer that leaves no stray file, a call that fails leaves
    no target. *)
Lemma extract_page_fresh_failure ddjvu input_file output_file page quality w :
  leaves_no_stray E →
  tiff_name output_file ≠ output_file →
  path_exists output_file w = false →
  path_exists (tiff_name output_file) w = false →
  let r := extract_page E ddjvu input_file output_file page quality w in
  result r = Ret false → files (final r) !! output_file = None.
Proof.
  intros [Hs1 Hs2] Hne [Hpng Hpngd]%path_exists_split
    [Htiff Htiffd]%path_exists_split.
  unfold_extract. unfold path_exists.
  repeat (simpl;
          rewrite ?lookup_insert_eq, ?lookup_delete_eq, ?Hpng, ?Htiff, ?Hpngd,
            ?Htiffd, ?Hs2, ?bool_decide_is_Some_Some, ?bool_decide_is_Some_None,
            ?andb_true_r, ?andb_false_r;
          rewrite ?lookup_insert_ne, ?lookup_delete_ne by done;
          try oracle_case E).
  all: try done.
  all: repeat match goal with
         | H : subprocess_result E _ = Completes _ _ true |- _ =>
             apply Hs1 in H; subst
         end; done.
Qed.

Lemma path_exists_agree p w' w :
  files w' !! p = files w !! p → dirs w' = dirs w →
  path_exists p w' = path_exists p w.
Proof. unfold path_exists. by intros -> ->. Qed.

(** A turn of the loop is a call of [extract_page], up to the console. *)
Lemma extract_step_page input_file temp_dir quality num_pages page w :
  ∃ w0,
    files w0 = files w ∧ dirs w0 = dirs w ∧
    let r := extract_page E DDJVU_PATH input_file
               (page_filename temp_dir page) page quality w0 in
    let step := extract_step E input_file temp_dir quality num_pages page w in
    result r = Ret (succeeded step) ∧
    files (final step) = files (final r) ∧
    dirs (final step) = dirs (final r).
Proof.
  exists (say ("Extracting page " +:+ Py.str page +:+ "/" +:+ Py.str num_pages
               +:+ "...") w).
  split; [done|]. split; [done|].
  unfold succeeded, extract_step. unfold_monad. simpl.
  match goal with
  | |- context [extract_page E ?a ?b ?c ?d ?e ?w0] =>
      destruct (extract_page_returns E a b c d e w0) as [ok Hok];
      destruct (extract_page E a b c d e w0) as [[[]|?] ?]
  end; done.
Qed.

Lemma successes_cons page ok results :
  successes ((page, ok) :: results)
  = (if ok then [page] else []) ++ successes results.
Proof. unfold successes. simpl. by destruct ok. Qed.

Section pages.

Context (input_file temp_dir : string) (quality num_pages : N).

Let png (page : N) : string := page_filename temp_dir page.
Let tif (page : N) : string := tiff_name (page_filename temp_dir page).
Let present (w : world) (page : N) : bool :=
  bool_decide (is_Some (files w !! png page)).

(** What the loop leaves, when it starts with none of its files in
    place. *)
Lemma world_after_pages_spec pages : ∀ w,
  NoDup pages → (∀ page, page ∈ pages → 1 ≤ page ≤ 9999) →
  (∀ page, page ∈ pages →
     path_exists (png page) w = false ∧ path_exists (tif page) w = false) →
  let w' := world_after_pages E input_file temp_dir quality num_pages pages w in
  let results := page_results E input_file temp_dir quality num_pages pages w in
  dirs w' = dirs w
  ∧ (∀ p, (∀ page, page ∈ pages → p ≠ png page ∧ p ≠ tif page) →
          files w' !! p = files w !! p)
  ∧ (∀ page, page ∈ pages →
       files w' !! png page = None
       ∨ files w' !! png page = Some (Raster input_file page PNG))
  ∧ (∀ page, page ∈ successes results → page ∈ pages ∧ present w' page = true)
  ∧ (leaves_no_stray E → successes results = List.filter (present w') pages).
Proof.
  unfold present, png, tif.
  induction pages as [|page rest IH]; intros w Hnodup Hrange Hfresh.
  { simpl. split; [done|]. split; [done|].
    split; [by intros ? ?%elem_of_nil|]. split; [|done].
    intros page Hp. by apply elem_of_nil in Hp. }
  apply NoDup_cons in Hnodup as [Hnotin Hnodup].
  destruct (extract_step_page input_file temp_dir quality num_pages page w)
    as (w0 & Hf0 & Hd0 & Hres & Hfiles & Hdirs).
  set (step := extract_step E input_file temp_dir quality num_pages page w) in *.
  set (r := extract_page E DDJVU_PATH input_file (page_filename temp_dir page)
              page quality w0) in *.
  destruct (Hfresh page) as [Hpng Htif]; [by left|].
  assert (path_exists (page_filename temp_dir page) w0 = false) as Hpng0
    by (by rewrite (path_exists_agree _ w0 w), Hpng by (by rewrite ?Hf0)).
  assert (path_exists (tiff_name (page_filename temp_dir page)) w0 = false) as Htif0
    by (by rewrite (path_exists_agree _ w0 w), Htif by (by rewrite ?Hf0)).
  destruct (extract_page_frame E DDJVU_PATH input_file
              (page_filename temp_dir page) page quality w0) as [Hdr Hframe].
  fold r in Hdr, Hframe.
  destruct (extract_page_fresh DDJVU_PATH input_file
              (page_filename temp_dir page) page quality w0)
    as [Hcontent Hsuccess]; [apply tiff_name_not_page|done..|].
  fold r in Hcontent, Hsuccess.
  (* the files of the other pages are as they were *)
  assert (∀ page', page' ∈ rest →
    page_filename temp_dir page' ≠ page_filename temp_dir page ∧
    page_filename temp_dir page' ≠ tiff_name (page_filename temp_dir page) ∧
    tiff_name (page_filename temp_dir page') ≠ page_filename temp_dir page ∧
    tiff_name (page_filename temp_dir page')
      ≠ tiff_name (page_filename temp_dir page)) as Hother.
  { intros page' Hin.
    assert (page' ≠ page) as Hne by (intros ->; done).
    assert (1 ≤ page ≤ 9999) by (apply Hrange; by left).
    assert (1 ≤ page' ≤ 9999) by (apply Hrange; by right).
    repeat split.
    - intros Heq. by apply page_filename_inj in Heq.
    - intros Heq. symmetry in Heq. by apply tiff_name_not_page in Heq.
    - apply tiff_name_not_page.
    - intros Heq. by apply tiff_name_inj in Heq. }
  assert (∀ page', page' ∈ rest →
    path_exists (page_filename temp_dir page') (final step) = false ∧
    path_exists (tiff_name (page_filename temp_dir page')) (final step) = false) as Hfresh'.
  { intros page' Hin. destruct (Hother page' Hin) as (? & ? & ? & ?).
    destruct (Hfresh page') as [Hp Ht]; [by right|].
    split.
    - rewrite (path_exists_agree _ _ w); [done| |congruence].
      rewrite Hfiles, Hframe by done. congruence.
    - rewrite (path_exists_agree _ _ w); [done| |congruence].
      rewrite Hfiles, Hframe by done. congruence. }
  destruct (IH (final step) Hnodup
              (λ p Hp, Hrange p (list_elem_of_further _ _ _ Hp)) Hfresh')
    as (IHdirs & IHframe & IHcontent & IHsucc & IHstray).
  cbn [world_after_pages page_results]. fold step.
  set (w' := world_after_pages E input_file temp_dir quality num_pages rest
               (final step)) in *.
  (* the file of this page is as the turn left it *)
  assert (files w' !! page_filename temp_dir page = files r.2 !! page_filename temp_dir page) as Hkeep.
  { rewrite IHframe, Hfiles; [done|]. intros page' Hin.
    destruct (Hother page' Hin) as (? & ? & ? & ?). split; congruence. }
  split; [congruence|]. split; [|split; [|split]].
  - intros p Hp. rewrite IHframe by (intros ? ?; apply Hp; by right).
    rewrite Hfiles. destruct (Hp page) as [? ?]; [by left|].
    unfold final in Hframe. rewrite Hframe by done. congruence.
  - intros page' [->|Hin]%elem_of_cons; [|by apply IHcontent].
    rewrite Hkeep. exact Hcontent.
  - intros page'. rewrite successes_cons, elem_of_app.
    intros [Hin|Hin].
    + destruct (succeeded step) eqn:Hok; [|by apply elem_of_nil in Hin].
      apply list_elem_of_singleton in Hin as ->. split; [by left|].
      rewrite Hkeep. unfold final in Hsuccess.
      rewrite Hsuccess by done. apply bool_decide_is_Some_Some.
    + destruct (IHsucc page' Hin). split; [by right|done].
  - intros Hstray. rewrite successes_cons, (IHstray Hstray).
    cbn [List.filter]. rewrite Hkeep.
    destruct (succeeded step) eqn:Hok.
    + unfold final in Hsuccess. rewrite Hsuccess by done.
      by rewrite bool_decide_is_Some_Some.
    + pose proof (extract_page_fresh_failure DDJVU_PATH input_file
                    (page_filename temp_dir page) page quality w0 Hstray
                    (tiff_name_not_page _ _ _) Hpng0 Htif0 Hres) as Hnone.
      unfold final in Hnone. fold r in Hnone. rewrite Hnone.
      by rewrite bool_decide_is_Some_None.
Qed.

End pages.

End page_facts.

(** ** The archive a conversion writes *)

Section archive_facts.

Context (E : Env).
Implicit Types (w : world) (page quality : N).

Lemma endswith_last_char suffix c s :
  Py.endswith (suffix +:+ String c "") s = true → Path.last_char s = Some c.
Proof.
  intros [r ->]%endswith_inv. rewrite <-sapp_assoc.
  by rewrite last_char_app_cons.
Qed.

(** A path that does not end in a dot names itself. *)
Lemma normdir_plain s c :
  Path.last_char s = Some c → c ≠ "."%char → normdir s = s.
Proof.
  intros Hlast Hc. unfold normdir.
  destruct (Py.endswith "/." s) eqn:Hend; [|done].
  apply (endswith_last_char "/" "."%char) in Hend. congruence.
Qed.

Lemma normdir_png stem : normdir (stem +:+ ".png") = stem +:+ ".png".
Proof.
  apply (normdir_plain _ "g"%char); [|done].
  change ".png" with (".pn" +:+ String "g" ""). rewrite <-sapp_assoc.
  by rewrite last_char_app_cons.
Qed.

Lemma normdir_tiff stem : normdir (stem +:+ ".tiff") = stem +:+ ".tiff".
Proof.
  apply (normdir_plain _ "f"%char); [|done].
  change ".tiff" with (".tif" +:+ String "f" ""). rewrite <-sapp_assoc.
  by rewrite last_char_app_cons.
Qed.

Lemma dirprefix_length d :
  (String.length d ≤ String.length (Path.dirprefix d))%nat.
Proof.
  unfold Path.dirprefix. destruct (Path.last_char d) as [c|]; [|done].
  destruct (Ascii.eqb c Path.sep); [done|]. rewrite slength_app. lia.
Qed.

Lemma page_filename_length temp_dir page :
  (String.length temp_dir < String.length (page_filename temp_dir page))%nat.
Proof.
  unfold page_filename, Path.join, page_name.
  pose proof (dirprefix_length temp_dir). rewrite !slength_app. simpl. lia.
Qed.

(** [replace] never shortens. *)
Lemma replace_length n : ∀ s,
  (String.length s < n)%nat →
  (String.length s ≤ String.length (Py.replace ".png" ".tiff" s))%nat.
Proof.
  induction n as [|n IH]; intros s Hn; [lia|]. rewrite replace_unfold.
  destruct (String.prefix ".png" s) eqn:Hp.
  - apply prefix_inv in Hp as [r ->].
    change 4%nat with (String.length ".png"). rewrite drop_app.
    rewrite !slength_app in *. simpl in *. specialize (IH r). lia.
  - destruct s as [|c s]; [done|]. simpl in *. specialize (IH s). lia.
Qed.

Lemma tiff_name_length temp_dir page :
  (String.length temp_dir
   < String.length (tiff_name (page_filename temp_dir page)))%nat.
Proof.
  pose proof (page_filename_length temp_dir page).
  pose proof (replace_length (S (String.length (page_filename temp_dir page)))
                (page_filename temp_dir page)).
  unfold tiff_name. lia.
Qed.

Lemma under_page_filename temp_dir page :
  Path.under temp_dir (page_filename temp_dir page) = true.
Proof.
  unfold Path.under, page_filename, Path.join.
  rewrite prefix_app. simpl. apply negb_true_iff, String.eqb_neq.
  intros H. apply (f_equal String.length) in H.
  rewrite slength_app in H. unfold page_name in H.
  rewrite slength_app in H. simpl in H. lia.
Qed.

(** The files of the pages are free once the scratch directory is
    made. *)
Lemma scratch_is_new_fresh input_file output_file w page :
  scratch_is_new E w →
  path_exists (page_filename (scratch_name E w) page)
    (counted_world E input_file output_file w) = false
  ∧ path_exists (tiff_name (page_filename (scratch_name E w) page))
      (counted_world E input_file output_file w) = false.
Proof.
  intros [Hbelow Htiff].
  destruct (Hbelow _ (under_page_filename (scratch_name E w) page))
    as [Hfile Hdir].
  destruct (Htiff page) as [Htfile Htdir].
  destruct (page_filename_png (scratch_name E w) page) as [stem Hstem].
  destruct (tiff_name_png stem) as [t Ht].
  pose proof (page_filename_length (scratch_name E w) page) as Hlen.
  pose proof (tiff_name_length (scratch_name E w) page) as Htlen.
  unfold path_exists. simpl. rewrite Hfile, Htfile.
  rewrite !bool_decide_is_Some_None. simpl. split.
  - apply bool_decide_eq_false. rewrite Hstem, normdir_png, <-Hstem.
    rewrite elem_of_union, elem_of_singleton. intros [Heq|?]; [|done].
    rewrite Heq in Hlen. lia.
  - apply bool_decide_eq_false. rewrite Hstem, Ht, normdir_tiff, <-Ht, <-Hstem.
    rewrite elem_of_union, elem_of_singleton. intros [Heq|?]; [|done].
    rewrite Heq in Htlen. lia.
Qed.

Lemma range_NoDup lo hi : NoDup (Py.range lo hi).
Proof.
  unfold Py.range. generalize (N.to_nat (hi - lo)) as n. intros n. revert lo.
  induction n as [|n IH]; intros lo; simpl; constructor; [|apply IH].
  rewrite elem_of_range_from. lia.
Qed.

Lemma filter_StronglySorted {A} (R : relation A) (f : A → bool) l :
  StronglySorted R l → StronglySorted R (List.filter f l).
Proof.
  induction 1 as [|x l Hl IH Hx]; simpl; [constructor|].
  destruct (f x); [|done]. constructor; [done|].
  rewrite Forall_forall in *. intros y Hy%list_elem_of_In%filter_In.
  apply Hx, list_elem_of_In, Hy.
Qed.

Lemma NoDup_list_filter {A} (f : A → bool) l :
  NoDup l → NoDup (List.filter f l).
Proof. rewrite !NoDup_ListNoDup. apply List.NoDup_filter. Qed.

Lemma NoDup_map_page_name pages :
  NoDup pages → (∀ page, page ∈ pages → 1 ≤ page ≤ 9999) →
  NoDup (map page_name pages).
Proof.
  induction 1 as [|page pages Hnotin Hnodup IH]; intros Hrange; simpl;
    constructor.
  - intros Hin%list_elem_of_In%in_map_iff. destruct Hin as (q & Heq & Hq).
    apply list_elem_of_In in Hq.
    apply page_name_inj in Heq;
      [by subst|apply Hrange; by right|apply Hrange; by left].
  - apply IH. intros p Hp. apply Hrange. by right.
Qed.

(** Writing the files of some pages into an archive appends their
    entries. *)
Lemma zip_write_all_pages output_file temp_dir input_file pages :
  ∀ w entries,
    (∀ name, zip_write_error E output_file name = None) →
    files w !! output_file = Some (Archive entries) →
    (∀ page, page ∈ pages →
       page_filename temp_dir page ≠ output_file ∧
       files w !! page_filename temp_dir page
         = Some (Raster input_file page PNG)) →
    ∃ w',
      zip_write_all E output_file temp_dir (map page_name pages) w = (Ret tt, w')
      ∧ files w'
        = <[output_file:=Archive (entries ++ map (page_entry input_file) pages)]>
            (files w).
Proof.
  induction pages as [|page rest IH]; intros w entries Hok Harchive Hpages.
  - exists w. split; [done|]. simpl. by rewrite app_nil_r, insert_id.
  - destruct (Hpages page) as [Hne Hfile]; [by left|].
    simpl. rewrite run_bind. unfold zip_write at 1.
    fold (page_filename temp_dir page). rewrite Hok, Hfile, Harchive.
    destruct (IH (set_files
                    (insert output_file
                       (Archive (entries ++ [(page_name page,
                                              Raster input_file page PNG)]))) w)
                 (entries ++ [(page_name page, Raster input_file page PNG)]))
      as (w' & Hrun & Hfiles); [done| | |].
    + simpl. by rewrite lookup_insert_eq.
    + intros p Hp. destruct (Hpages p) as [? ?]; [by right|].
      split; [done|]. simpl. by rewrite lookup_insert_ne.
    + exists w'. split; [exact Hrun|]. rewrite Hfiles. simpl.
      rewrite insert_insert_eq. unfold page_entry at 2.
      by rewrite <-app_assoc.
Qed.

Section conversion.

Context (input_file output_file : string) (quality : N) (w : world).

Let temp_dir : string := scratch_name E w.
Let num_pages : N := page_count E input_file.
Let pages : list N := Py.range 1 (num_pages + 1).
Let w2 : world := extracted_world E input_file output_file quality w.
Let archived : list N := pages_in_scratch E input_file output_file quality w.
Let successful : list N := successful_pages E input_file output_file quality w.

Hypothesis Hnew : scratch_is_new E w.
Hypothesis Hcount : num_pages ≤ 9999.

Lemma pages_range page : page ∈ pages → 1 ≤ page ≤ 9999.
Proof. unfold pages. rewrite elem_of_range. lia. Qed.

(** What the page loop of the conversion leaves. *)
Lemma extracted_world_spec :
  (∀ p, (∀ page, page ∈ pages →
           p ≠ page_filename temp_dir page ∧
           p ≠ tiff_name (page_filename temp_dir page)) →
        files w2 !! p = files w !! p)
  ∧ (∀ page, page ∈ pages →
       files w2 !! page_filename temp_dir page = None
       ∨ files w2 !! page_filename temp_dir page
         = Some (Raster input_file page PNG))
  ∧ (∀ page, page ∈ successful → page ∈ archived)
  ∧ (leaves_no_stray E → successful = archived).
Proof.
  destruct (world_after_pages_spec E input_file temp_dir quality num_pages pages
              (counted_world E input_file output_file w)
              (range_NoDup _ _) pages_range
              (λ page _, scratch_is_new_fresh input_file output_file w page Hnew))
    as (_ & Hframe & Hcontent & Hsucc & Hstray).
  split; [exact Hframe|]. split; [exact Hcontent|]. split; [|exact Hstray].
  intros page Hpage. destruct (Hsucc page Hpage) as [Hin Hpresent].
  unfold archived, pages_in_scratch. apply list_elem_of_In, filter_In.
  split; [by apply list_elem_of_In|exact Hpresent].
Qed.

Lemma archived_spec page :
  page ∈ archived ↔
  page ∈ pages ∧ files w2 !! page_filename temp_dir page
                 = Some (Raster input_file page PNG).
Proof.
  unfold archived, pages_in_scratch. rewrite list_elem_of_In, filter_In.
  rewrite <-list_elem_of_In, bool_decide_eq_true. fold w2 temp_dir pages.
  destruct extracted_world_spec as (_ & Hcontent & _). split.
  - intros [Hin Hsome]. split; [done|].
    destruct (Hcontent page Hin) as [Hnone|?]; [|done].
    rewrite Hnone in Hsome. by destruct Hsome.
  - intros [Hin Hsome]. split; [done|]. by rewrite Hsome.
Qed.

Lemma archived_sorted : StronglySorted N.lt archived.
Proof. apply filter_StronglySorted, range_from_sorted. Qed.

Lemma archived_range page : page ∈ archived → 1 ≤ page ≤ 9999.
Proof. intros [Hin _]%archived_spec. by apply pages_range. Qed.

Hypothesis Hout : Path.under temp_dir output_file = false.

Lemma entry_name_inv d p f :
  Path.entry_name d p = Some f →
  p = Path.dirprefix d +:+ f ∧ Path.under d p = true.
Proof.
  unfold Path.entry_name. destruct (Path.under d p) eqn:Hunder; [|done].
  destruct (Path.has_sep _); [done|]. intros [= <-]. split; [|done].
  unfold Path.under in Hunder. apply andb_true_iff in Hunder as [Hpre _].
  apply prefix_inv in Hpre as [r ->]. by rewrite drop_app.
Qed.

Lemma entry_name_page_filename page :
  1 ≤ page ≤ 9999 →
  Path.entry_name temp_dir (page_filename temp_dir page) = Some (page_name page).
Proof.
  intros Hpage. unfold Path.entry_name. rewrite under_page_filename.
  unfold page_filename, Path.join. rewrite drop_app.
  by rewrite page_name_no_sep.
Qed.

(** The PNG files the archiver finds in the scratch directory are the
    files of the pages that are there. *)
Lemma png_files_spec w3 name :
  files w3 = <[output_file:=Archive []]> (files w2) →
  name ∈ List.filter (Py.endswith ".png") (listdir temp_dir w3) ↔
  name ∈ map page_name archived.
Proof.
  intros Hfiles. destruct extracted_world_spec as (Hframe & _).
  rewrite !list_elem_of_In, filter_In, in_map_iff.
  rewrite <-list_elem_of_In. unfold listdir.
  rewrite elem_of_elements, elem_of_set_omap. split.
  - intros [(p & Hdom & Hentry) Hpng].
    apply entry_name_inv in Hentry as [-> Hunder].
    apply elem_of_dom in Hdom. rewrite Hfiles in Hdom.
    rewrite lookup_insert_ne in Hdom
      by (intros Heq; rewrite Heq in Hout; congruence).
    destruct (decide (Exists (λ page,
                Path.dirprefix temp_dir +:+ name = page_filename temp_dir page
                ∨ Path.dirprefix temp_dir +:+ name
                  = tiff_name (page_filename temp_dir page)) pages))
      as [Hex|Hnex].
    + apply Exists_exists in Hex as (page & Hpage & [Heq|Heq]).
      * exists page. unfold page_filename, Path.join in Heq.
        apply String.app_inj in Heq as ->. split; [done|].
        apply list_elem_of_In, archived_spec. split; [done|].
        destruct extracted_world_spec as (_ & Hcontent & _).
        destruct (Hcontent page Hpage) as [Hnone|?]; [|done].
        unfold page_filename, Path.join in Hnone. rewrite Hnone in Hdom.
        by destruct Hdom.
      * exfalso. apply endswith_inv in Hpng as [r ->].
        destruct (page_filename_png temp_dir page) as [stem Hstem].
        rewrite Hstem in Heq. destruct (tiff_name_png stem) as [t Ht].
        rewrite Ht, <-sapp_assoc in Heq. symmetry in Heq.
        by apply tiff_not_png in Heq.
    + exfalso. rewrite Hframe in Hdom.
      * destruct Hnew as [Hbelow _]. destruct (Hbelow _ Hunder) as [Hnone _].
        fold temp_dir in Hnone. rewrite Hnone in Hdom. by destruct Hdom.
      * intros page Hpage. split; intros Heq; apply Hnex, Exists_exists;
          exists page; auto.
  - intros (page & <- & Hin%list_elem_of_In).
    apply archived_spec in Hin as [Hpage Hfile].
    split; [|apply (endswith_app ".png" ("page_" +:+ Py.fmt_04d page))].
    exists (page_filename temp_dir page). split.
    + apply elem_of_dom. rewrite Hfiles.
      rewrite lookup_insert_ne by
        (intros Heq; rewrite Heq in Hout;
         by rewrite under_page_filename in Hout).
      by rewrite Hfile.
    + apply entry_name_page_filename. by apply pages_range.
Qed.

(** After [sort], they are in the order of the pages. *)
Lemma png_files_sorted w3 :
  files w3 = <[output_file:=Archive []]> (files w2) →
  merge_sort String.le (List.filter (Py.endswith ".png") (listdir temp_dir w3))
  = map page_name archived.
Proof.
  intros Hfiles. apply (StronglySorted_unique String.le).
  - apply StronglySorted_merge_sort; apply _.
  - apply page_names_sorted; [apply archived_sorted|apply archived_range].
  - rewrite merge_sort_Permutation. apply NoDup_Permutation.
    + apply NoDup_list_filter, NoDup_elements.
    + apply NoDup_map_page_name; [|apply archived_range].
      apply NoDup_list_filter, range_NoDup.
    + intros name. by apply png_files_spec.
Qed.

(** The archiver writes the pages that are in the scratch directory, in
    the order of the pages. *)
Lemma create_cbz_run w3 :
  zip_open_error E output_file = None →
  (∀ name, zip_write_error E output_file name = None) →
  files w3 = files w2 →
  ∃ w4,
    create_cbz E output_file temp_dir w3 = (Ret (map page_name archived), w4)
    ∧ files w4 !! output_file
      = Some (Archive (map (page_entry input_file) archived)).
Proof.
  intros Hopen Hwrite Hfiles. unfold create_cbz.
  rewrite run_bind. unfold zip_open at 1. rewrite Hopen.
  rewrite run_bind. unfold gets at 1.
  set (w3' := set_files _ w3).
  assert (files w3' = <[output_file:=Archive []]> (files w2)) as Hfiles'
    by (subst w3'; simpl; by rewrite Hfiles).
  rewrite (png_files_sorted w3' Hfiles'). rewrite run_bind.
  destruct (zip_write_all_pages output_file temp_dir input_file archived
              w3' [] Hwrite) as (w4 & Hrun & Hw4).
  - rewrite Hfiles'. by rewrite lookup_insert_eq.
  - intros page [Hpage Hfile]%archived_spec. split.
    + intros Heq. rewrite <-Heq in Hout.
      by rewrite under_page_filename in Hout.
    + rewrite Hfiles', lookup_insert_ne; [done|].
      intros Heq. rewrite Heq in Hout.
      by rewrite under_page_filename in Hout.
  - rewrite Hrun. exists w4. split; [done|].
    rewrite Hw4. by rewrite lookup_insert_eq.
Qed.

End conversion.

End archive_facts.

Lemma scratch_is_new_empty (E : Env) : scratch_is_new E empty_world.
Proof.
  split; [intros p _|intros page];
    (split; [apply lookup_empty|apply not_elem_of_empty]).
Qed.

(** C1, counterexample: a book of 10000 pages of which pages 9999 and
    10000 are extracted, while the failed attempt on page 1 leaves its
    PNG behind.  The archive has three entries for two extracted pages,
    and in the order of the file names page 10000 comes before page
    9999. *)
Lemma long_book_archive :
  page_count long_book_env "book.djvu" = 10000
  ∧ successful_pages long_book_env "book.djvu" "book.cbz" 85 empty_world
    = [9999; 10000]
  ∧ files (final (convert_djvu_to_cbz long_book_env "book.djvu" "book.cbz" 85
                    empty_world)) !! "book.cbz"
    = Some (Archive [("page_0001.png", Raster "book.djvu" 1 PNG);
                     ("page_10000.png", Raster "book.djvu" 10000 PNG);
                     ("page_9999.png", Raster "book.djvu" 9999 PNG)])
  ∧ map snd
      (merge_sort name_le
         [("page_0001.png", Raster "book.djvu" 1 PNG);
          ("page_10000.png", Raster "book.djvu" 10000 PNG);
          ("page_9999.png", Raster "book.djvu" 9999 PNG)])
    = [Raster "book.djvu" 1 PNG; Raster "book.djvu" 10000 PNG;
       Raster "book.djvu" 9999 PNG]
  ∧ ¬ archive_holds_extracted_pages long_book_env "book.djvu" "book.cbz" 85
        empty_world.
Proof.
  assert (successful_pages long_book_env "book.djvu" "book.cbz" 85 empty_world
          = [9999; 10000]) as Hpages by (vm_compute; reflexivity).
  assert (files (final (convert_djvu_to_cbz long_book_env "book.djvu"
                          "book.cbz" 85 empty_world)) !! "book.cbz"
          = Some (Archive [("page_0001.png", Raster "book.djvu" 1 PNG);
                           ("page_10000.png", Raster "book.djvu" 10000 PNG);
                           ("page_9999.png", Raster "book.djvu" 9999 PNG)]))
    as Harchive by (vm_compute; reflexivity).
  split; [vm_compute; reflexivity|]. split; [exact Hpages|].
  split; [exact Harchive|]. split; [vm_compute; reflexivity|].
  intros (entries & Hentries & Hlength & _).
  rewrite Harchive in Hentries. injection Hentries as <-.
  rewrite Hpages in Hlength. discriminate Hlength.
Qed.

(** C1, amended: when the scratch directory is new, the destination is
    outside of it, the document has at most 9999 pages, the archive can be
    written and at least one page is extracted, [convert_djvu_to_cbz]
    returns [True] and the archive holds, in ascending order of the pages
    and of the file names alike, one entry for every page whose PNG is in
    the scratch directory when the extraction is over.  Every extracted
    page is among them; when a failed extraction never leaves a PNG
    behind, they are the extracted pages and nothing else, so that the
    archive has as many entries as pages were extracted. *)
Theorem convert_archives_pages_in_order (E : Env)
    (input_file output_file : string) (quality : N) (w : world) :
  scratch_is_new E w →
  Path.under (scratch_name E w) output_file = false →
  page_count E input_file ≤ 9999 →
  zip_open_error E output_file = None →
  (∀ name, zip_write_error E output_file name = None) →
  successful_pages E input_file output_file quality w ≠ [] →
  let r := convert_djvu_to_cbz E input_file output_file quality w in
  let archived := pages_in_scratch E input_file output_file quality w in
  let successful := successful_pages E input_file output_file quality w in
  result r = Ret true
  ∧ files (final r) !! output_file
    = Some (Archive (map (page_entry input_file) archived))
  ∧ StronglySorted N.lt archived
  ∧ StronglySorted String.le (map page_name archived)
  ∧ (∀ page, page ∈ successful → page ∈ archived)
  ∧ (leaves_no_stray E →
     archived = successful
     ∧ length (map (page_entry input_file) archived) = length successful).
Proof.
  intros Hnew Hout Hcount Hopen Hwrite Hsome. cbv zeta.
  destruct (extracted_world_spec E input_file output_file quality w Hnew Hcount)
    as (_ & _ & Hsub & Hstray).
  destruct (create_cbz_run E input_file output_file quality w Hnew Hcount Hout
              (say ("Creating CBZ file: " +:+ output_file)
                 (extracted_world E input_file output_file quality w))
              Hopen Hwrite eq_refl) as (w4 & Hrun & Harchive).
  split; [|split; [|split; [|split; [|split]]]].
  - rewrite convert_run. cbv zeta.
    destruct (successful_pages E input_file output_file quality w); [done|].
    by rewrite Hrun.
  - rewrite convert_run. cbv zeta.
    destruct (successful_pages E input_file output_file quality w); [done|].
    rewrite Hrun. unfold final. cbn [fst snd].
    unfold cleanup, remove_tree. cbn [files].
    apply map_lookup_filter_Some. split; [exact Harchive|exact Hout].
  - apply archived_sorted; assumption.
  - apply page_names_sorted; [apply archived_sorted; assumption|].
    by apply archived_range.
  - exact Hsub.
  - intros Hno. rewrite (Hstray Hno).
    split; [done|]. by rewrite length_map.
Qed.

Lemma convert_archives_pages_in_order_witness :
  let r := convert_djvu_to_cbz tiff_only_env "book.djvu" "book.cbz" 85
             empty_world in
  result r = Ret true
  ∧ files (final r) !! "book.cbz"
    = Some (Archive (map (page_entry "book.djvu")
                       (pages_in_scratch tiff_only_env "book.djvu" "book.cbz" 85
                          empty_world))).
Proof.
  destruct (convert_archives_pages_in_order tiff_only_env "book.djvu" "book.cbz"
              85 empty_world) as (Hret & Harchive & _).
  - apply scratch_is_new_empty.
  - reflexivity.
  - vm_compute. discriminate.
  - reflexivity.
  - reflexivity.
  - vm_compute. discriminate.
  - split; [exact Hret|exact Harchive].
Defined.

(** ** Decimal numerals *)

Section numeral_facts.

Lemma int_from_pos d : ∀ p,
  Py.int_from (N.pos p) (NilEmpty.string_of_uint d)
  = Some (N.pos (Pos.of_uint_acc d p)).
Proof.
  induction d; intros p; cbn [NilEmpty.string_of_uint Py.int_from];
    [done|change (Py.digit_value _) with (Some 0)
     |change (Py.digit_value _) with (Some 1)
     |change (Py.digit_value _) with (Some 2)
     |change (Py.digit_value _) with (Some 3)
     |change (Py.digit_value _) with (Some 4)
     |change (Py.digit_value _) with (Some 5)
     |change (Py.digit_value _) with (Some 6)
     |change (Py.digit_value _) with (Some 7)
     |change (Py.digit_value _) with (Some 8)
     |change (Py.digit_value _) with (Some 9)];
    cbn [Pos.of_uint_acc];
    match goal with
    | |- Py.int_from ?a _ = Some (N.pos (Pos.of_uint_acc _ ?q)) =>
        replace a with (N.pos q) by lia
    end; apply IHd.
Qed.

Lemma int_from_uint d :
  Py.int_from 0 (NilEmpty.string_of_uint d) = Some (N.of_uint d).
Proof.
  unfold N.of_uint.
  induction d; cbn [NilEmpty.string_of_uint Py.int_from Pos.of_uint];
    [done|exact IHd|..]; apply int_from_pos.
Qed.

Lemma int_from_str n : Py.int_from 0 (Py.str n) = Some n.
Proof.
  unfold Py.str. rewrite int_from_uint. f_equal. apply DecimalN.Unsigned.of_to.
Qed.

Lemma str_not_empty n : Py.str n ≠ "".
Proof.
  intros Heq. pose proof (int_from_str n) as H. rewrite Heq in H.
  injection H as <-. discriminate Heq.
Qed.

(** [int(str(n)) == n] *)
Lemma int_str n : Py.int (Py.str n) = Some n.
Proof.
  pose proof (str_not_empty n) as Hne. pose proof (int_from_str n) as H.
  unfold Py.int. by destruct (Py.str n).
Qed.

Lemma str_inj n m : Py.str n = Py.str m → n = m.
Proof.
  intros Heq. pose proof (int_str n) as H. rewrite Heq, int_str in H.
  by injection H.
Qed.

Lemma int_from_zeros k s : Py.int_from 0 (Py.zeros k +:+ s) = Py.int_from 0 s.
Proof.
  induction k as [|k IH]; [done|].
  cbn [Py.zeros]. rewrite sapp_cons. cbn [Py.int_from].
  change (Py.digit_value "0") with (Some 0). exact IH.
Qed.

(** The number can be read back from its padded form. *)
Lemma int_fmt_04d n : Py.int (Py.fmt_04d n) = Some n.
Proof.
  pose proof (int_from_zeros (4 - String.length (Py.str n)) (Py.str n)) as H.
  rewrite int_from_str in H. unfold Py.fmt_04d, Py.int. cbv zeta.
  destruct (Py.zeros _ +:+ Py.str n) eqn:Heq; [|exact H].
  destruct (Py.zeros _); [|by rewrite sapp_cons in Heq].
  rewrite sapp_nil_l in Heq. by apply str_not_empty in Heq.
Qed.

Lemma fmt_04d_inj n m : Py.fmt_04d n = Py.fmt_04d m → n = m.
Proof.
  intros Heq. pose proof (int_fmt_04d n) as H. rewrite Heq, int_fmt_04d in H.
  by injection H.
Qed.

Lemma all_digits_uint d :
  Py.all_chars Py.isdigit_char (NilEmpty.string_of_uint d) = true.
Proof. induction d; cbn [NilEmpty.string_of_uint Py.all_chars]; done. Qed.

Lemma isdigit_str n : Py.isdigit (Py.str n) = true.
Proof.
  pose proof (str_not_empty n) as Hne. unfold Py.isdigit.
  pose proof (all_digits_uint (N.to_uint n)) as H. fold (Py.str n) in H.
  by destruct (Py.str n).
Qed.

Lemma no_space_uint d :
  Py.all_chars (λ c, negb (Py.isspace c)) (NilEmpty.string_of_uint d) = true.
Proof. induction d; cbn [NilEmpty.string_of_uint Py.all_chars]; done. Qed.

Lemma lstrip_no_space s :
  Py.all_chars (λ c, negb (Py.isspace c)) s = true → Py.lstrip s = s.
Proof.
  destruct s as [|c s]; [done|]. cbn [Py.all_chars Py.lstrip].
  by destruct (Py.isspace c).
Qed.

Lemma all_chars_app p s t :
  Py.all_chars p (s +:+ t) = Py.all_chars p s && Py.all_chars p t.
Proof.
  induction s as [|c s IH]; [done|].
  rewrite sapp_cons. cbn [Py.all_chars]. by rewrite IH, andb_assoc.
Qed.

Lemma all_chars_rev p s : Py.all_chars p (String.rev s) = Py.all_chars p s.
Proof.
  induction s as [|c s IH]; [done|].
  rewrite rev_cons, all_chars_app, IH. cbn [Py.all_chars].
  by rewrite andb_true_r, andb_comm.
Qed.

Lemma lstrip_app_no_space s t :
  s ≠ "" → Py.all_chars (λ c, negb (Py.isspace c)) s = true →
  Py.lstrip (s +:+ t) = s +:+ t.
Proof.
  destruct s as [|c s]; [done|]. intros _. rewrite sapp_cons.
  cbn [Py.all_chars Py.lstrip]. by destruct (Py.isspace c).
Qed.

(** A numeral followed by a line break strips to the numeral. *)
Lemma strip_str_newline n :
  Py.strip (Py.str n +:+ String Py.newline "") = Py.str n.
Proof.
  pose proof (no_space_uint (N.to_uint n)) as Hns. fold (Py.str n) in Hns.
  unfold Py.strip.
  rewrite lstrip_app_no_space by (done || apply str_not_empty).
  rewrite rev_app. change (String.rev (String Py.newline ""))
    with (String Py.newline "").
  rewrite sapp_cons, sapp_nil_l. cbn [Py.lstrip].
  change (Py.isspace Py.newline) with true. cbv iota.
  rewrite lstrip_no_space by (by rewrite all_chars_rev).
  apply rev_involutive.
Qed.

Lemma strip_str n : Py.strip (Py.str n) = Py.str n.
Proof.
  pose proof (no_space_uint (N.to_uint n)) as Hns. fold (Py.str n) in Hns.
  unfold Py.strip. rewrite (lstrip_no_space (Py.str n)) by done.
  rewrite lstrip_no_space by (by rewrite all_chars_rev).
  apply rev_involutive.
Qed.

End numeral_facts.

(** ** More on the page count *)

(** X1: when the script evaluator exits with status 0 and prints the
    decimal numeral of [n], alone or followed by a line break,
    [get_page_count] returns [n]: it prints nothing, changes no file and
    does not run the page lister. *)
Theorem get_page_count_reads_decimal (E : Env) (input_file stdout : string)
    (n : N) (wrote : bool) (w : world) :
  subprocess_result E (djvused_cmd input_file) = Completes 0 stdout wrote →
  stdout = Py.str n ∨ stdout = Py.str n +:+ String Py.newline "" →
  get_page_count E input_file w
  = (Ret n,
     World (files w) (dirs w) (console w)
           (djvused_cmd input_file :: processes w)).
Proof.
  intros Hrun Hout.
  assert (Py.strip stdout = Py.str n) as Hstrip.
  { destruct Hout as [->| ->]; [apply strip_str|apply strip_str_newline]. }
  assert (primary_count E input_file = Some n) as Hcount.
  { unfold primary_count. rewrite Hrun, Hstrip, isdigit_str. apply int_str. }
  rewrite get_page_count_run.
  unfold page_count, count_notices, count_cmds. rewrite Hcount, Hrun.
  rewrite Hstrip, isdigit_str, int_str. reflexivity.
Qed.

Lemma get_page_count_reads_decimal_witness :
  get_page_count tiff_only_env "book.djvu" empty_world
  = (Ret 3, World ∅ ∅ [] [djvused_cmd "book.djvu"]).
Proof.
  apply (get_page_count_reads_decimal tiff_only_env "book.djvu" "3" 3 false
           empty_world).
  - reflexivity.
  - left. reflexivity.
Defined.

(** X2: [str.isdigit] accepts characters that [int] refuses.  When the
    script evaluator exits with status 0 and prints such a string, the
    [ValueError] is caught and reported, and the count is taken from the
    page lister, or is the default 100 when the lister gives none. *)
Theorem get_page_count_unreadable_digits (E : Env) (input_file stdout : string)
    (wrote : bool) (w : world) :
  subprocess_result E (djvused_cmd input_file) = Completes 0 stdout wrote →
  Py.isdigit (Py.strip stdout) = true →
  Py.int (Py.strip stdout) = None →
  let r := get_page_count E input_file w in
  result r = Ret (default 100 (fallback_count E input_file))
  ∧ processes (final r)
    = listing_cmd input_file :: djvused_cmd input_file :: processes w
  ∧ ∃ e, ("Error getting page count with djvused: " +:+ e) ∈ console (final r).
Proof.
  intros Hrun Hdigit Hint r. subst r.
  assert (primary_count E input_file = None) as Hcount.
  { unfold primary_count. by rewrite Hrun, Hdigit, Hint. }
  rewrite get_page_count_run. unfold result, final. cbn [fst snd processes console].
  unfold page_count, count_cmds, count_notices. rewrite Hcount, Hrun.
  rewrite Hdigit, Hint. cbn [default Z.eqb andb].
  split; [done|]. split; [done|].
  exists "invalid literal for int() with base 10".
  rewrite !elem_of_app. left. right. by left.
Qed.

Lemma get_page_count_unreadable_digits_witness :
  result (get_page_count superscript_env "book.djvu" empty_world) = Ret 2.
Proof.
  destruct (get_page_count_unreadable_digits superscript_env "book.djvu"
              (String (ascii_of_N 178) "") false empty_world) as (H & _).
  - reflexivity.
  - reflexivity.
  - reflexivity.
  - exact H.
Defined.

(** X3: [get_page_count] returns 0 only when the script evaluator
    exits with status 0 and prints a numeral of value 0; a count taken
    from the page lister is at least 1. *)
Theorem zero_count_source (E : Env) (input_file : string) (w : world) :
  result (get_page_count E input_file w) = Ret 0 →
  ∃ stdout wrote,
    subprocess_result E (djvused_cmd input_file) = Completes 0 stdout wrote
    ∧ Py.int (Py.strip stdout) = Some 0.
Proof.
  rewrite get_page_count_run. unfold result. cbn [fst].
  intros [= Hzero]. revert Hzero.
  unfold page_count, primary_count, fallback_count.
  destruct (subprocess_result E (djvused_cmd input_file))
    as [e|rc stdout wrote] eqn:Hrun.
  - cbn [default].
    destruct (subprocess_result E (listing_cmd input_file)) as [e'|rc' out' ?];
      [done|].
    destruct (rc' =? 0)%Z; [|done]. by destruct (page_lines out').
  - destruct (rc =? 0)%Z eqn:Hrc; cbn [andb].
    + apply Z.eqb_eq in Hrc as ->.
      destruct (Py.isdigit (Py.strip stdout)).
      * destruct (Py.int (Py.strip stdout)) as [n|] eqn:Hint.
        -- intros Hn. simpl in Hn. subst n. by exists stdout, wrote.
        -- cbn [default].
           destruct (subprocess_result E (listing_cmd input_file))
             as [e'|rc' out' ?]; [done|].
           destruct (rc' =? 0)%Z; [|done]. by destruct (page_lines out').
      * cbn [default].
        destruct (subprocess_result E (listing_cmd input_file))
          as [e'|rc' out' ?]; [done|].
        destruct (rc' =? 0)%Z; [|done]. by destruct (page_lines out').
    + cbn [default].
      destruct (subprocess_result E (listing_cmd input_file))
        as [e'|rc' out' ?]; [done|].
      destruct (rc' =? 0)%Z; [|done]. by destruct (page_lines out').
Qed.

Lemma zero_count_source_witness :
  ∃ stdout wrote,
    subprocess_result empty_document_env (djvused_cmd "book.djvu")
      = Completes 0 stdout wrote
    ∧ Py.int (Py.strip stdout) = Some 0.
Proof.
  apply (zero_count_source empty_document_env "book.djvu" empty_world).
  reflexivity.
Defined.

(** X4: the page number can be read back from the padded numeral in
    the name of a page file, whatever the number of digits, so the
    files of two pages in the same directory have the same name only
    when the pages are the same. *)
Theorem page_number_round_trip (temp_dir : string) (page1 page2 : N) :
  Py.int (Py.fmt_04d page1) = Some page1
  ∧ (page_filename temp_dir page1 = page_filename temp_dir page2
     ↔ page1 = page2).
Proof.
  split; [apply int_fmt_04d|]. split; [|by intros ->].
  unfold page_filename, Path.join, page_name.
  intros Heq%String.app_inj%String.app_inj.
  by apply sapp_inv_r, fmt_04d_inj in Heq.
Qed.

(** ** More on the page extractor *)

(** [extract_page] runs the renderer once or twice. *)
Lemma extract_page_spawns (E : Env) (ddjvu input_file output_file : string)
    (page quality : N) (w : world) :
  let r := extract_page E ddjvu input_file output_file page quality w in
  let png_cmd := render_cmd ddjvu input_file output_file page quality "png" in
  let tiff_cmd :=
    render_cmd ddjvu input_file (tiff_name output_file) page quality "tiff" in
  processes (final r) = png_cmd :: processes w
  ∨ processes (final r) = tiff_cmd :: png_cmd :: processes w.
Proof. unfold_extract. repeat (case_match; simplify_eq/=); auto. Qed.

(** X5: when the PNG attempt exits with status 0 and the target exists
    afterwards, written by the renderer or left there by an earlier run,
    [extract_page] returns [True] at once: the TIFF attempt is not made,
    nothing is printed, and a target the renderer did not write keeps
    what it held. *)
Theorem extract_page_direct (E : Env) (ddjvu input_file output_file : string)
    (page quality : N) (w : world) (out : string) (wrote : bool) :
  subprocess_result E
    (render_cmd ddjvu input_file output_file page quality "png")
    = Completes 0 out wrote →
  wrote = true ∨ path_exists output_file w = true →
  extract_page E ddjvu input_file output_file page quality w
  = (Ret true,
     World (if wrote then <[output_file:=Raster input_file page PNG]> (files w)
            else files w)
           (dirs w) (console w)
           (render_cmd ddjvu input_file output_file page quality "png"
            :: processes w)).
Proof.
  intros Hrun Hthere. unfold_extract. rewrite Hrun. cbn [fst snd Z.eqb andb].
  destruct wrote.
  - rewrite path_exists_file; [done|]. cbn [files]. rewrite lookup_insert_eq. eauto.
  - destruct Hthere as [?|Hthere]; [done|].
    unfold path_exists in *. cbn [files dirs] in *. by rewrite Hthere.
Qed.

Lemma extract_page_direct_witness :
  result (extract_page long_book_env DDJVU_PATH "book.djvu"
            "/tmp/tmpq7x2/page_9999.png" 9999 85 empty_world) = Ret true.
Proof.
  rewrite (extract_page_direct long_book_env DDJVU_PATH "book.djvu"
             "/tmp/tmpq7x2/page_9999.png" 9999 85 empty_world "" true).
  - reflexivity.
  - reflexivity.
  - by left.
Defined.

(** X6: when the renderer cannot be started for the PNG attempt,
    [extract_page] reports the error and returns [False] without trying
    the TIFF format; no file is touched. *)
Theorem extract_page_spawn_failure (E : Env)
    (ddjvu input_file output_file : string) (page quality : N) (w : world)
    (e : exn) :
  subprocess_result E
    (render_cmd ddjvu input_file output_file page quality "png")
    = Raises e →
  extract_page E ddjvu input_file output_file page quality w
  = (Ret false,
     World (files w) (dirs w)
           (("Error extracting page " +:+ Py.str page +:+ ": " +:+ e)
            :: console w)
           (render_cmd ddjvu input_file output_file page quality "png"
            :: processes w)).
Proof. intros Hrun. unfold_extract. by rewrite Hrun. Qed.

Lemma extract_page_spawn_failure_witness :
  extract_page no_tools_env DDJVU_PATH "book.djvu" "/tmp/tmpq7x2/page_0001.png"
    1 85 empty_world
  = (Ret false,
     World ∅ ∅ ["Error extracting page 1: FileNotFoundError"]
       [render_cmd DDJVU_PATH "book.djvu" "/tmp/tmpq7x2/page_0001.png" 1 85
          "png"]).
Proof.
  apply (extract_page_spawn_failure no_tools_env DDJVU_PATH "book.djvu"
           "/tmp/tmpq7x2/page_0001.png" 1 85 empty_world "FileNotFoundError").
  reflexivity.
Defined.

Lemma extract_page_after_tiff (E : Env) (ddjvu input_file output_file : string)
    (page quality : N) (w : world)
    (rc1 : Z) (out1 : string) (wrote1 : bool) (out2 : string) :
  subprocess_result E
    (render_cmd ddjvu input_file output_file page quality "png")
    = Completes rc1 out1 wrote1 →
  rc1 ≠ 0%Z ∨ (wrote1 = false ∧ path_exists output_file w = false) →
  subprocess_result E
    (render_cmd ddjvu input_file (tiff_name output_file) page quality "tiff")
    = Completes 0 out2 true →
  extract_page E ddjvu input_file output_file page quality w
  = try_except
      (pil_reencode E (tiff_name output_file) output_file;;
       os_remove E (tiff_name output_file);;
       mret true)
      (λ e, print ("Error extracting page " +:+ Py.str page +:+ ": " +:+ e);;
            mret false)
      (tiff_written ddjvu input_file output_file page quality wrote1 w).
Proof.
  intros H1 Hfail H2.
  unfold extract_page, try_except. unfold mbind at 1, M_bind at 1.
  unfold subprocess_run at 1. rewrite H1.
  unfold os_path_exists, gets. unfold mbind at 1, M_bind at 1.
  set (w1 := if wrote1 then _ else _).
  assert ((rc1 =? 0)%Z && path_exists output_file w1 = false) as Hc1.
  { destruct Hfail as [Hrc|[-> Hno]].
    - by destruct (Z.eqb_spec rc1 0).
    - apply andb_false_iff. right. subst w1. unfold path_exists in *. done. }
  cbn [fst]. rewrite Hc1.
  unfold mbind at 1, M_bind at 1. unfold subprocess_run at 1. rewrite H2.
  set (w2 := set_files _ _).
  unfold mbind at 1, M_bind at 1.
  assert (path_exists (tiff_name output_file) w2 = true) as ->.
  { apply path_exists_file. subst w2. simpl. rewrite lookup_insert_eq. eauto. }
  cbn [fst Z.eqb andb].
  assert (w2 = tiff_written ddjvu input_file output_file page quality wrote1 w)
    as ->; [|done].
  subst w2 w1. unfold tiff_written, set_files, spawned. by destruct wrote1.
Qed.

(** X7: when the TIFF attempt succeeds and the re-encoding raises,
    [extract_page] reports the error and returns [False]; the TIFF file
    is not removed. *)
Theorem extract_page_reencode_failure (E : Env)
    (ddjvu input_file output_file : string) (page quality : N) (w : world)
    (rc1 : Z) (out1 : string) (wrote1 : bool) (out2 : string) (e : exn) :
  let tiff_file := tiff_name output_file in
  let r := extract_page E ddjvu input_file output_file page quality w in
  subprocess_result E
    (render_cmd ddjvu input_file output_file page quality "png")
    = Completes rc1 out1 wrote1 →
  rc1 ≠ 0%Z ∨ (wrote1 = false ∧ path_exists output_file w = false) →
  subprocess_result E
    (render_cmd ddjvu input_file tiff_file page quality "tiff")
    = Completes 0 out2 true →
  pil_save_error E tiff_file output_file = Some e →
  result r = Ret false
  ∧ files (final r) !! tiff_file = Some (Raster input_file page TIFF)
  ∧ ∃ lines,
      console (final r)
      = ("Error extracting page " +:+ Py.str page +:+ ": " +:+ e) :: lines.
Proof.
  intros tiff_file r Hpng Hfail Htiff Hpil. subst r tiff_file.
  assert (extract_page E ddjvu input_file output_file page quality w
          = (Ret false,
             say ("Error extracting page " +:+ Py.str page +:+ ": " +:+ e)
               (tiff_written ddjvu input_file output_file page quality wrote1 w)))
    as ->.
  { rewrite (extract_page_after_tiff E _ _ _ _ _ _ _ _ _ _ Hpng Hfail Htiff).
    unfold try_except. unfold mbind at 1, M_bind at 1.
    unfold pil_reencode at 1. unfold tiff_written at 1. cbn [files].
    by rewrite lookup_insert_eq, Hpil. }
  unfold result, final, tiff_written. cbn [fst snd say files console].
  rewrite lookup_insert_eq. eauto.
Qed.

Lemma extract_page_reencode_failure_witness :
  let r := extract_page broken_pillow_env DDJVU_PATH "book.djvu"
             "/tmp/tmpq7x2/page_0001.png" 1 85 empty_world in
  result r = Ret false
  ∧ files (final r) !! "/tmp/tmpq7x2/page_0001.tiff"
    = Some (Raster "book.djvu" 1 TIFF).
Proof.
  destruct (extract_page_reencode_failure broken_pillow_env DDJVU_PATH
              "book.djvu" "/tmp/tmpq7x2/page_0001.png" 1 85 empty_world
              0 "" false "" "OSError") as (Hret & Htiff & _).
  - reflexivity.
  - right. split; reflexivity.
  - reflexivity.
  - reflexivity.
  - split; [exact Hret|exact Htiff].
Defined.

(** X8: [extract_page] never raises.  It runs the renderer once or
    twice and nothing else, makes and removes no directory, and leaves
    every file other than the target and its TIFF twin as it was. *)
Theorem extract_page_footprint (E : Env)
    (ddjvu input_file output_file : string) (page quality : N) (w : world) :
  let r := extract_page E ddjvu input_file output_file page quality w in
  let png_cmd := render_cmd ddjvu input_file output_file page quality "png" in
  let tiff_cmd :=
    render_cmd ddjvu input_file (tiff_name output_file) page quality "tiff" in
  (∃ ok, result r = Ret ok)
  ∧ dirs (final r) = dirs w
  ∧ (∀ p, p ≠ output_file → p ≠ tiff_name output_file →
          files (final r) !! p = files w !! p)
  ∧ (processes (final r) = png_cmd :: processes w
     ∨ processes (final r) = tiff_cmd :: png_cmd :: processes w).
Proof.
  intros r png_cmd tiff_cmd. subst r png_cmd tiff_cmd.
  split; [apply extract_page_returns|].
  split; [apply extract_page_frame|].
  split; [apply extract_page_frame|].
  apply extract_page_spawns.
Qed.

(** X9: the name of the TIFF file is the target with every [.png]
    replaced.  For a target without [.png] in its name the two are the
    same file: a fallback that goes through then re-encodes the file in
    place and removes it, and [extract_page] returns [True] with nothing
    left at the target. *)
Theorem extract_page_target_without_png (E : Env)
    (ddjvu input_file output_file : string) (page quality : N) (w : world)
    (rc1 : Z) (out1 : string) (wrote1 : bool) (out2 : string) :
  let r := extract_page E ddjvu input_file output_file page quality w in
  tiff_name output_file = output_file →
  subprocess_result E
    (render_cmd ddjvu input_file output_file page quality "png")
    = Completes rc1 out1 wrote1 →
  rc1 ≠ 0%Z ∨ (wrote1 = false ∧ path_exists output_file w = false) →
  subprocess_result E
    (render_cmd ddjvu input_file output_file page quality "tiff")
    = Completes 0 out2 true →
  pil_save_error E output_file output_file = None →
  os_remove_error E output_file = None →
  result r = Ret true ∧ files (final r) !! output_file = None.
Proof.
  intros r Hsame Hpng Hfail Htiff Hpil Hrm. subst r.
  rewrite <-Hsame in Htiff at 1.
  assert (∃ w', extract_page E ddjvu input_file output_file page quality w
                = (Ret true, w') ∧ files w' !! output_file = None)
    as (w' & -> & Hgone); [|done].
  rewrite (extract_page_after_tiff E _ _ _ _ _ _ _ _ _ _ Hpng Hfail Htiff).
  rewrite Hsame.
  unfold try_except. unfold mbind at 1, M_bind at 1. unfold pil_reencode at 1.
  unfold tiff_written at 1. rewrite Hsame. cbn [files].
  rewrite lookup_insert_eq, Hpil.
  unfold mbind at 1, M_bind at 1. unfold os_remove at 1. rewrite Hrm.
  unfold set_files at 1. cbn [files]. rewrite lookup_insert_eq.
  eexists. split; [reflexivity|].
  unfold set_files. cbn [files]. apply lookup_delete_eq.
Qed.

Lemma extract_page_target_without_png_witness :
  let r := extract_page tiff_only_env DDJVU_PATH "book.djvu"
             "/tmp/tmpq7x2/page_0001.PNG" 1 85 empty_world in
  result r = Ret true ∧ files (final r) !! "/tmp/tmpq7x2/page_0001.PNG" = None.
Proof.
  apply (extract_page_target_without_png tiff_only_env DDJVU_PATH "book.djvu"
           "/tmp/tmpq7x2/page_0001.PNG" 1 85 empty_world 0 "" false "").
  - reflexivity.
  - reflexivity.
  - right. split; reflexivity.
  - reflexivity.
  - reflexivity.
  - reflexivity.
Defined.

(** ** More on the document converter *)

Section converter_more.

Context (E : Env).
Implicit Types (w : world) (quality num_pages page : N).

Lemma extract_step_footprint input_file temp_dir quality num_pages page w :
  let w' := final (extract_step E input_file temp_dir quality num_pages page w) in
  dirs w' = dirs w
  ∧ (∀ p, p ≠ page_filename temp_dir page →
          p ≠ tiff_name (page_filename temp_dir page) →
          files w' !! p = files w !! p)
  ∧ ∃ new, processes w' = new ++ processes w
           ∧ (1 ≤ length new ≤ 2)%nat ∧ renderer_calls new.
Proof.
  set (w0 := say ("Extracting page " +:+ Py.str page +:+ "/"
                  +:+ Py.str num_pages +:+ "...") w).
  pose proof (extract_page_frame E DDJVU_PATH input_file
                (page_filename temp_dir page) page quality w0) as [Hd Hf].
  pose proof (extract_page_spawns E DDJVU_PATH input_file
                (page_filename temp_dir page) page quality w0) as Hp.
  cbv zeta in Hp. unfold extract_step. unfold_monad. cbn [fst snd]. fold w0.
  destruct (extract_page E DDJVU_PATH input_file (page_filename temp_dir page)
              page quality w0) as [[[]|e] w1]; cbn [fst snd] in *.
  all: split; [exact Hd|]; split; [exact Hf|].
  all: cbn [processes say]; destruct Hp as [Hp|Hp]; rewrite ?Hp.
  all: try (eexists [_]; split; [reflexivity|]; split; [simpl; lia|];
            by repeat constructor).
  all: try (eexists [_; _]; split; [reflexivity|]; split; [simpl; lia|];
            by repeat constructor).
Qed.

Lemma world_after_pages_footprint input_file temp_dir quality num_pages pages :
  ∀ w,
    let w' := world_after_pages E input_file temp_dir quality num_pages pages w in
    dirs w' = dirs w
    ∧ (∀ p, (∀ page, page ∈ pages →
               p ≠ page_filename temp_dir page ∧
               p ≠ tiff_name (page_filename temp_dir page)) →
            files w' !! p = files w !! p)
    ∧ ∃ new, processes w' = new ++ processes w
             ∧ (length pages ≤ length new ≤ 2 * length pages)%nat
             ∧ renderer_calls new.
Proof.
  induction pages as [|page rest IH]; intros w; cbn [world_after_pages].
  - split; [done|]. split; [done|]. exists []. split; [done|].
    split; [simpl; lia|constructor].
  - destruct (extract_step_footprint input_file temp_dir quality num_pages page w)
      as (Hd1 & Hf1 & new1 & Hp1 & Hl1 & Hc1).
    destruct (IH (final (extract_step E input_file temp_dir quality num_pages
                           page w))) as (Hd2 & Hf2 & new2 & Hp2 & Hl2 & Hc2).
    cbv zeta in *. split; [by rewrite Hd2|]. split.
    + intros p Hp. rewrite Hf2.
      * apply Hf1; apply Hp; by left.
      * intros q Hq. apply Hp. by right.
    + exists (new2 ++ new1). split; [by rewrite Hp2, Hp1, app_assoc|].
      split; [rewrite length_app; simpl; lia|].
      by apply Forall_app.
Qed.

Lemma zip_write_all_footprint output_file temp_dir names :
  ∀ w,
    let w' := final (zip_write_all E output_file temp_dir names w) in
    dirs w' = dirs w ∧ processes w' = processes w ∧ console w' = console w
    ∧ ∀ p, p ≠ output_file → files w' !! p = files w !! p.
Proof.
  induction names as [|name rest IH]; intros w; cbn [zip_write_all]; [done|].
  unfold mbind, M_bind, zip_write.
  destruct (zip_write_error E output_file name); [done|].
  destruct (files w !! Path.join temp_dir name) as [c|]; [|done].
  destruct (files w !! output_file) as [[| entries|]|]; try done.
  destruct (IH (set_files (insert output_file
                             (Archive (entries ++ [(name, c)]))) w))
    as (Hd & Hp & Hc & Hf).
  cbv zeta in *. unfold final in *.
  destruct (zip_write_all E output_file temp_dir rest _) as [[[]|e] w'];
    cbn [fst snd] in *.
  all: split; [done|]; split; [done|]; split; [done|].
  all: intros p Hne; rewrite Hf by done; unfold set_files; cbn [files].
  all: by rewrite lookup_insert_ne.
Qed.

Lemma create_cbz_footprint output_file temp_dir w :
  let w' := final (create_cbz E output_file temp_dir w) in
  dirs w' = dirs w ∧ processes w' = processes w ∧ console w' = console w
  ∧ ∀ p, p ≠ output_file → files w' !! p = files w !! p.
Proof.
  pose proof (zip_write_all_footprint output_file temp_dir
                (merge_sort String.le
                   (List.filter (Py.endswith ".png")
                      (listdir temp_dir
                         (set_files (insert output_file (Archive [])) w))))
                (set_files (insert output_file (Archive [])) w))
    as (Hd & Hp & Hc & Hf).
  cbv zeta in *. unfold create_cbz, zip_open. unfold_monad.
  destruct (zip_open_error E output_file); [done|]. cbn [fst snd] in *.
  destruct (zip_write_all E output_file temp_dir _ _) as [[[]|e] w'];
    cbn [fst snd] in *.
  all: split; [done|]; split; [done|]; split; [done|].
  all: intros p Hne; rewrite Hf by done; unfold set_files; cbn [files].
  all: by rewrite lookup_insert_ne.
Qed.

(** The world a conversion ends in, up to the console. *)
Lemma convert_final input_file output_file quality w :
  let temp_dir := scratch_name E w in
  let w2 := extracted_world E input_file output_file quality w in
  ∃ w3 line,
    final (convert_djvu_to_cbz E input_file output_file quality w)
      = cleanup temp_dir (say line w3)
    ∧ dirs w3 = dirs w2 ∧ processes w3 = processes w2
    ∧ (∀ p, p ≠ output_file → files w3 !! p = files w2 !! p)
    ∧ (successful_pages E input_file output_file quality w = [] →
       files w3 = files w2).
Proof.
  intros temp_dir w2. rewrite convert_run. cbv zeta. fold temp_dir w2.
  destruct (successful_pages E input_file output_file quality w).
  - by eexists w2, _.
  - destruct (create_cbz_footprint output_file temp_dir
                (say ("Creating CBZ file: " +:+ output_file) w2))
      as (Hd & Hp & _ & Hf).
    cbv zeta in *. unfold final in *.
    destruct (create_cbz E output_file temp_dir _) as [[names|e] w3];
      cbn [fst snd] in *; by eexists w3, _.
Qed.

Lemma cleanup_lookup temp_dir w p :
  Path.under temp_dir p = false →
  files (cleanup temp_dir w) !! p = files w !! p.
Proof.
  intros Hp. unfold cleanup, remove_tree. cbn [files say].
  destruct (files w !! p) as [c|] eqn:Hc.
  - by apply map_lookup_filter_Some.
  - apply map_lookup_filter_None. left. done.
Qed.

Lemma under_not_page temp_dir p page :
  Path.under temp_dir p = false → p ≠ page_filename temp_dir page.
Proof.
  intros Hp ->. by rewrite under_page_filename in Hp.
Qed.

End converter_more.


(** X11: a conversion runs nothing but the script evaluator, the page
    lister and the renderer.  For a document of [n] pages it runs at
    least [n + 1] and at most [2 n + 2] processes: the renderer is run
    for every page, whatever happened to the pages before. *)
Theorem convert_process_bound (E : Env) (input_file output_file : string)
    (quality : N) (w : world) :
  let r := convert_djvu_to_cbz E input_file output_file quality w in
  ∃ new,
    processes (final r) = new ++ processes w
    ∧ (N.to_nat (page_count E input_file) + 1 ≤ length new
       ≤ 2 * N.to_nat (page_count E input_file) + 2)%nat
    ∧ Forall (λ cmd, head cmd = Some DJVUSED_PATH ∨ head cmd = Some DDJVU_PATH)
        new.
Proof.
  intros r. subst r.
  destruct (convert_final E input_file output_file quality w)
    as (w3 & line & -> & _ & Hp & _ & _).
  destruct (world_after_pages_footprint E input_file (scratch_name E w) quality
              (page_count E input_file)
              (Py.range 1 (page_count E input_file + 1))
              (counted_world E input_file output_file w))
    as (_ & _ & new & Hp2 & Hlen & Hcalls).
  cbv zeta in *. unfold extracted_world in Hp. cbv zeta in Hp.
  exists (new ++ count_cmds E input_file).
  unfold cleanup, remove_tree. cbn [processes say].
  rewrite Hp, Hp2. cbn [processes counted_world scratch_world].
  split; [by rewrite app_assoc|]. split.
  - rewrite length_app. unfold Py.range in Hlen.
    assert (1 ≤ length (count_cmds E input_file) ≤ 2)%nat
      by (unfold count_cmds; by destruct (primary_count E input_file); simpl; lia).
    assert (∀ n lo, length (Py.range_from lo n) = n) as Hrange
      by (intros n; induction n as [|n IH]; intros lo; simpl; [done|];
          by rewrite IH).
    rewrite Hrange in Hlen. lia.
  - apply Forall_app. split.
    + eapply Forall_impl; [exact Hcalls|]. intros cmd Hcmd. by right.
    + unfold count_cmds. destruct (primary_count E input_file);
        repeat constructor; by (left + right).
Qed.

(** ** When the archive cannot be written *)

Lemma create_cbz_open_failure (E : Env) (output_file temp_dir : string)
    (w : world) (e : exn) :
  zip_open_error E output_file = Some e →
  create_cbz E output_file temp_dir w = (Exc e, w).
Proof.
  intros Hopen. unfold create_cbz. rewrite run_bind.
  unfold zip_open at 1. by rewrite Hopen.
Qed.

(** X12: when the archive cannot be opened for writing although pages
    were extracted, the conversion returns [False] and reports the error
    before it cleans up; what was at the destination is still there. *)
Theorem convert_open_failure (E : Env) (input_file output_file : string)
    (quality : N) (w : world) (e : exn) :
  zip_open_error E output_file = Some e →
  successful_pages E input_file output_file quality w ≠ [] →
  let r := convert_djvu_to_cbz E input_file output_file quality w in
  let temp_dir := scratch_name E w in
  result r = Ret false
  ∧ (∃ lines,
       console (final r)
       = ("Cleaning up temporary directory: " +:+ temp_dir)
         :: ("Error converting " +:+ input_file +:+ ": " +:+ e) :: lines)
  ∧ (Path.under temp_dir output_file = false →
     (∀ page, output_file ≠ tiff_name (page_filename temp_dir page)) →
     files (final r) !! output_file = files w !! output_file).
Proof.
  intros Hopen Hsome r temp_dir. subst r.
  rewrite convert_run. cbv zeta. fold temp_dir.
  destruct (successful_pages E input_file output_file quality w); [done|].
  rewrite (create_cbz_open_failure E _ _ _ e Hopen).
  unfold result, final. cbn [fst snd].
  split; [done|]. split.
  - rewrite cleanup_console. cbn [console say]. eauto.
  - intros Hout Htiff. rewrite cleanup_lookup by done. cbn [files say].
    destruct (world_after_pages_footprint E input_file temp_dir quality
                (page_count E input_file)
                (Py.range 1 (page_count E input_file + 1))
                (counted_world E input_file output_file w)) as (_ & Hf & _).
    unfold extracted_world. cbv zeta in *. fold temp_dir. rewrite Hf; [done|].
    intros page _. split; [by apply under_not_page|apply Htiff].
Qed.

Lemma convert_open_failure_witness :
  let r := convert_djvu_to_cbz read_only_env "book.djvu" "book.cbz" 85
             empty_world in
  result r = Ret false ∧ files (final r) !! "book.cbz" = None.
Proof.
  destruct (convert_open_failure read_only_env "book.djvu" "book.cbz" 85
              empty_world "PermissionError") as (Hret & _ & Hkept).
  - reflexivity.
  - vm_compute. discriminate.
  - split; [exact Hret|]. rewrite Hkept; [reflexivity|reflexivity|].
    intros page Heq.
    pose proof (tiff_name_length (scratch_name read_only_env empty_world) page)
      as Hlen.
    rewrite <-Heq in Hlen. vm_compute in Hlen. lia.
Defined.




(** ** What the archiver takes *)

Section archiver_facts.

Context (E : Env).


End archiver_facts.



(** X22: for a document of no pages the conversion returns [False]
    without running the renderer.  The only processes are those of the
    page count, and every file outside the scratch directory, the
    destination included, is as it was. *)
Theorem convert_empty_document (E : Env) (input_file output_file : string)
    (quality : N) (w : world) :
  page_count E input_file = 0 →
  let r := convert_djvu_to_cbz E input_file output_file quality w in
  result r = Ret false
  ∧ processes (final r) = count_cmds E input_file ++ processes w
  ∧ (∀ p, Path.under (scratch_name E w) p = false →
          files (final r) !! p = files w !! p)
  ∧ ∃ lines,
      console (final r)
      = ("Cleaning up temporary directory: " +:+ scratch_name E w)
        :: ("Error: Could not extract any pages from " +:+ input_file)
        :: "Document has 0 pages" :: lines.
Proof.
  intros Hzero r. subst r. rewrite convert_run. cbv zeta.
  unfold successful_pages, extracted_world. rewrite Hzero.
  change (Py.range 1 (0 + 1)) with (@nil N).
  cbn [page_results world_after_pages successes List.filter map].
  unfold result, final. cbn [fst snd].
  split; [done|]. split; [done|]. split.
  - intros p Hp. by rewrite cleanup_lookup.
  - rewrite cleanup_console. cbn [console say counted_world].
    rewrite Hzero. eauto.
Qed.

Lemma convert_empty_document_witness :
  let r := convert_djvu_to_cbz empty_document_env "book.djvu" "book.cbz" 85
             empty_world in
  result r = Ret false ∧ processes (final r) = [djvused_cmd "book.djvu"].
Proof.
  destruct (convert_empty_document empty_document_env "book.djvu" "book.cbz" 85
              empty_world) as (Hret & Hprocs & _).
  - reflexivity.
  - split; [exact Hret|exact Hprocs].
Defined.

(** ** More on the batch orchestrator *)

Section folder_more.

Context (E : Env).

Lemma discover_files_nothing input_folder output_folder rel fs :
  ∀ jobs w,
    List.filter is_djvu fs = [] →
    discover_files input_folder output_folder rel fs jobs w = (Ret jobs, w).
Proof.
  induction fs as [|file rest IH]; intros jobs w Hnone; [done|].
  cbn [discover_files List.filter] in *.
  destruct (is_djvu file); [done|]. by apply IH.
Qed.

Lemma discover_nothing input_folder output_folder walk :
  ∀ jobs w,
    (∀ rel fs, (rel, fs) ∈ walk → List.filter is_djvu fs = []) →
    discover input_folder output_folder walk jobs w = (Ret jobs, w).
Proof.
  induction walk as [|[rel fs] rest IH]; intros jobs w Hnone; [done|].
  cbn [discover]. rewrite run_bind.
  rewrite discover_files_nothing by (apply (Hnone rel); by left).
  apply IH. intros rel' fs' Hin. apply (Hnone rel'). by right.
Qed.




End folder_more.









(** ** Which files are sources *)

Section source_names.

Lemma lower_app s t : Py.lower (s +:+ t) = Py.lower s +:+ Py.lower t.
Proof.
  induction s as [|c s IH]; [done|].
  rewrite sapp_cons. cbn [Py.lower]. by rewrite sapp_cons, IH.
Qed.

Lemma lower_app_inv a : ∀ s b,
  Py.lower s = a +:+ b →
  ∃ s1 s2, s = s1 +:+ s2 ∧ Py.lower s1 = a ∧ Py.lower s2 = b.
Proof.
  induction a as [|c a IH]; intros s b Heq.
  - exists "", s. by rewrite sapp_nil_l in *.
  - rewrite sapp_cons in Heq. destruct s as [|c' s]; [done|].
    cbn [Py.lower] in Heq. injection Heq as Hc Hs.
    destruct (IH s b Hs) as (s1 & s2 & -> & H1 & H2).
    exists (String c' s1), s2. rewrite sapp_cons. cbn [Py.lower].
    by rewrite Hc, H1.
Qed.

Lemma has_dot_lower s : has_dot (Py.lower s) = has_dot s.
Proof.
  induction s as [|c s IH]; [done|]. cbn [Py.lower has_dot]. rewrite IH.
  f_equal. unfold Py.lower_char.
  destruct (_ && _) eqn:Hupper; [|done].
  apply andb_true_iff in Hupper as [Hlo Hhi].
  apply N.leb_le in Hlo, Hhi.
  destruct (Ascii.eqb_spec c ".") as [->|_]; [done|].
  apply Ascii.eqb_neq. intros Heq.
  apply (f_equal N_of_ascii) in Heq. rewrite N_ascii_embedding in Heq by lia.
  change (N_of_ascii ".") with 46 in Heq. lia.
Qed.

Lemma splitext_dots doc ext :
  Path.all_dots doc = true → has_dot ext = false →
  Path.splitext (doc +:+ "." +:+ ext) = (doc +:+ "." +:+ ext, "").
Proof.
  intros Hdoc Hext. unfold Path.splitext.
  rewrite !rev_app, sapp_assoc.
  rewrite splitext_rev_no_dot by by rewrite has_dot_rev.
  rewrite rev_involutive, sapp_nil_r.
  change (String.rev ".") with ".". rewrite sapp_cons, sapp_nil_l. simpl.
  rewrite all_dots_rev, Hdoc. rewrite rev_cons, rev_involutive.
  by rewrite sapp_assoc.
Qed.

End source_names.

(** X18: a file is taken as a source exactly when its name ends in
    [.djvu] or [.djv] written in any mix of upper and lower case
    letters. *)
Theorem is_djvu_any_case (file : string) :
  is_djvu file = true ↔
  ∃ stem ext, file = stem +:+ ext
              ∧ (Py.lower ext = ".djvu" ∨ Py.lower ext = ".djv").
Proof.
  unfold is_djvu. rewrite orb_true_iff. split.
  - intros [H|H]; apply endswith_inv in H as [r Hr];
      apply lower_app_inv in Hr as (stem & ext & -> & _ & Hext);
      exists stem, ext; auto.
  - intros (stem & ext & -> & [Hext|Hext]); rewrite lower_app, Hext;
      [left|right]; apply endswith_app.
Qed.

(** X19: the archive of a source is named after what [os.path.splitext]
    leaves of the file name.  For [doc.ext] that is [doc.cbz]; for a
    name that starts with its only dot or has nothing but dots before
    the extension, such as [.djvu], the whole name is kept and the
    archive is [.djvu.cbz]. *)
Theorem output_name_of_source (output_folder : string) (rel : list string)
    (doc ext : string) :
  Py.lower ext = "djvu" ∨ Py.lower ext = "djv" →
  is_djvu (doc +:+ "." +:+ ext) = true
  ∧ output_path output_folder rel (doc +:+ "." +:+ ext)
    = Path.join (output_subdir output_folder rel)
        (if Path.all_dots doc then doc +:+ "." +:+ ext +:+ ".cbz"
         else doc +:+ ".cbz").
Proof.
  intros Hext.
  assert (has_dot ext = false) as Hdot
    by (rewrite <-has_dot_lower; by destruct Hext as [->| ->]).
  split.
  - unfold is_djvu. rewrite !lower_app. change (Py.lower ".") with ".".
    apply orb_true_iff.
    destruct Hext as [->| ->]; [left|right];
      [apply (endswith_app ".djvu")|apply (endswith_app ".djv")].
  - unfold output_path. f_equal.
    destruct (Path.all_dots doc) eqn:Hdoc.
    + rewrite splitext_dots by done. cbn [fst]. by rewrite !sapp_assoc.
    + by rewrite splitext_doc_ext.
Qed.

Lemma output_name_of_source_witness :
  is_djvu ".DjVu" = true
  ∧ output_path "out" ["a"] ".DjVu" = "out/a/.DjVu.cbz".
Proof.
  destruct (output_name_of_source "out" ["a"] "" "DjVu") as [Hsrc Hout].
  - by left.
  - split; [exact Hsrc|]. etrans; [exact Hout|]. reflexivity.
Defined.

(** ** Where the jobs point *)

Section job_paths.

Lemma dirprefix_app d : ∃ t, Path.dirprefix d = d +:+ t.
Proof.
  unfold Path.dirprefix. destruct (Path.last_char d) as [c|].
  - destruct (Ascii.eqb c Path.sep); [exists ""|exists "/"];
      by rewrite ?sapp_nil_r.
  - exists "". by rewrite sapp_nil_r.
Qed.

Lemma walk_root_prefix rel : ∀ base,
  ∃ x, Path.dirprefix (walk_root base rel) = Path.dirprefix base +:+ x.
Proof.
  unfold walk_root.
  induction rel as [|d rel IH]; intros base; cbn [fold_left].
  - exists "". by rewrite sapp_nil_r.
  - destruct (IH (Path.join base d)) as [x ->].
    unfold Path.join at 1. destruct (dirprefix_app (Path.dirprefix base +:+ d))
      as [t ->].
    exists (d +:+ t +:+ x). by rewrite !sapp_assoc.
Qed.

Lemma sapp_not_empty_r s t : t ≠ "" → s +:+ t ≠ "".
Proof.
  intros Ht Heq. apply (f_equal String.length) in Heq.
  rewrite slength_app in Heq. destruct t; [done|].
  cbn [String.length] in Heq. lia.
Qed.

Lemma under_app d x :
  x ≠ "" → Path.under d (Path.dirprefix d +:+ x) = true.
Proof.
  intros Hx. unfold Path.under. rewrite prefix_app. cbn [andb].
  apply negb_true_iff, String.eqb_neq. intros Heq.
  apply (f_equal String.length) in Heq. rewrite slength_app in Heq.
  destruct x; [done|]. cbn [String.length] in Heq. lia.
Qed.

Lemma twin_walk_valid : valid_walk (os_walk twin_env "in").
Proof.
  intros rel fs Hin. cbn [os_walk twin_env] in Hin.
  apply elem_of_cons in Hin as [Hin|Hin];
    [|apply list_elem_of_singleton in Hin]; injection Hin as -> ->.
  - split; intros x Hx; [by apply elem_of_nil in Hx|].
    apply elem_of_cons in Hx as [->|Hx];
      [|apply list_elem_of_singleton in Hx as ->]; by split.
  - split; intros x Hx.
    + apply elem_of_cons in Hx as [->|Hx];
        [|apply list_elem_of_singleton in Hx as ->]; by repeat split.
    + apply list_elem_of_singleton in Hx as ->. by split.
Qed.

End job_paths.

(** X23: every job of the discovery reads a file below the input folder
    and writes an archive named [*.cbz] below the output folder. *)
Theorem jobs_stay_in_folders (E : Env) (input_folder output_folder : string)
    (job : string * string) :
  valid_walk (os_walk E input_folder) →
  job ∈ jobs_of_walk input_folder output_folder (os_walk E input_folder) →
  Path.under input_folder job.1 = true
  ∧ Path.under output_folder job.2 = true
  ∧ Py.endswith ".cbz" job.2 = true.
Proof.
  intros Hvalid (rel & fs & file & Hwalk & Hfile & _ & ->)%elem_of_jobs_of_walk.
  destruct (Hvalid rel fs Hwalk) as [_ Hfs].
  destruct (Hfs file Hfile) as [Hne _].
  unfold job_of. cbn [fst snd]. split; [|split].
  - unfold Path.join. destruct (walk_root_prefix rel input_folder) as [x ->].
    rewrite sapp_assoc. by apply under_app, sapp_not_empty_r.
  - unfold output_path, output_subdir, Path.join.
    destruct (dirprefix_app (Path.dirprefix output_folder +:+ relpath rel))
      as [t ->].
    rewrite !sapp_assoc. by apply under_app; do 3 apply sapp_not_empty_r.
  - unfold output_path, Path.join. rewrite <-sapp_assoc.
    apply endswith_app.
Qed.

Lemma jobs_stay_in_folders_witness :
  Path.under "in" "in/a/b/doc.djvu" = true
  ∧ Path.under "out" "out/a/b/doc.cbz" = true
  ∧ Py.endswith ".cbz" "out/a/b/doc.cbz" = true.
Proof.
  apply (jobs_stay_in_folders twin_env "in" "out"
           ("in/a/b/doc.djvu", "out/a/b/doc.cbz")).
  - apply twin_walk_valid.
  - apply elem_of_jobs_of_walk. exists ["a"; "b"], ["doc.djvu"], "doc.djvu".
    split; [right; by left|]. split; [by left|]. split; reflexivity.
Defined.

(** ** Nothing depends on what was printed *)

Section blind_facts.

Context (E : Env).

Lemma same_fs_refl w : same_fs w w.
Proof. done. Qed.

Lemma same_fs_say line1 line2 w1 w2 :
  same_fs w1 w2 → same_fs (say line1 w1) (say line2 w2).
Proof. done. Qed.

Lemma same_fs_path_exists p w1 w2 :
  same_fs w1 w2 → path_exists p w1 = path_exists p w2.
Proof. intros (Hf & Hd & _). unfold path_exists. by rewrite Hf, Hd. Qed.

Lemma blind_ret {A} (a : A) : blind (mret a).
Proof. by intros w1 w2 H. Qed.

Lemma blind_raise {A} (e : exn) : blind (raise e : M A).
Proof. by intros w1 w2 H. Qed.

Lemma blind_bind {A B} (m : M A) (f : A → M B) :
  blind m → (∀ a, blind (f a)) → blind (m ≫= f).
Proof.
  intros Hm Hf w1 w2 H. destruct (Hm w1 w2 H) as [Hr Hw].
  rewrite !run_bind. unfold result, final in *.
  destruct (m w1) as [[a1|e1] w1'], (m w2) as [[a2|e2] w2'];
    cbn [fst snd] in *; simplify_eq; [by apply Hf|done].
Qed.

Lemma blind_try_except {A} (body : M A) (handler : exn → M A) :
  blind body → (∀ e, blind (handler e)) → blind (try_except body handler).
Proof.
  intros Hm Hf w1 w2 H. destruct (Hm w1 w2 H) as [Hr Hw].
  unfold try_except, result, final in *.
  destruct (body w1) as [[a1|e1] w1'], (body w2) as [[a2|e2] w2'];
    cbn [fst snd] in *; simplify_eq; [done|by apply Hf].
Qed.

Lemma blind_try_finally {A} (body : M A) (cleanup : M unit) :
  blind body → blind cleanup → blind (try_finally body cleanup).
Proof.
  intros Hm Hc w1 w2 H. destruct (Hm w1 w2 H) as [Hr Hw].
  unfold try_finally, result, final in *.
  destruct (body w1) as [r1 w1'], (body w2) as [r2 w2'];
    cbn [fst snd] in *. subst r2.
  destruct (Hc w1' w2' Hw) as [Hr' Hw']. unfold result, final in *.
  destruct (cleanup w1') as [[[]|e1] w1''], (cleanup w2') as [[[]|e2] w2''];
    cbn [fst snd] in *; by simplify_eq.
Qed.

Lemma blind_print line : blind (print line).
Proof. by intros w1 w2 H. Qed.

Lemma blind_path_exists p : blind (os_path_exists p).
Proof.
  intros w1 w2 H. unfold os_path_exists, gets, result, final. cbn [fst snd].
  by rewrite (same_fs_path_exists p w1 w2 H).
Qed.

Lemma blind_listdir d : blind (gets (listdir d)).
Proof.
  intros w1 w2 H. unfold gets, listdir, result, final. cbn [fst snd].
  destruct H as (Hf & ?). by rewrite Hf.
Qed.

Lemma blind_makedirs p : blind (os_makedirs p).
Proof.
  intros w1 w2 (Hf & Hd & Hp). unfold os_makedirs, modify, result, final.
  cbn [fst snd]. split; [done|]. unfold same_fs, set_dirs. cbn [files dirs processes].
  by rewrite Hf, Hd, Hp.
Qed.

Lemma blind_mkdtemp : blind (mkdtemp E).
Proof.
  intros w1 w2 (Hf & Hd & Hp). unfold mkdtemp, scratch_name, result, final.
  cbn [fst snd]. rewrite Hf, Hd. split; [done|].
  unfold same_fs, set_dirs. cbn [files dirs processes]. by rewrite Hf, Hd, Hp.
Qed.

Lemma blind_rmtree d : blind (rmtree d).
Proof.
  intros w1 w2 (Hf & Hd & Hp). unfold rmtree, modify, remove_tree, result, final.
  cbn [fst snd]. split; [done|]. unfold same_fs. cbn [files dirs processes].
  by rewrite Hf, Hd, Hp.
Qed.

Lemma blind_remove p : blind (os_remove E p).
Proof.
  intros w1 w2 (Hf & Hd & Hp). unfold os_remove, result, final.
  destruct (os_remove_error E p); [done|]. rewrite Hf.
  destruct (files w2 !! p); cbn [fst snd]; [|done]. split; [done|].
  unfold same_fs, set_files. cbn [files dirs processes]. by rewrite Hf, Hd, Hp.
Qed.

Lemma blind_subprocess_run cmd target : blind (subprocess_run E cmd target).
Proof.
  intros w1 w2 (Hf & Hd & Hp). unfold subprocess_run, result, final.
  destruct (subprocess_result E cmd) as [e|rc out wrote]; cbn [fst snd].
  - split; [done|]. unfold same_fs, spawned. cbn [files dirs processes].
    by rewrite Hf, Hd, Hp.
  - split; [done|]. destruct target as [[p c]|]; [destruct wrote|];
      unfold same_fs, spawned, set_files; cbn [files dirs processes];
      by rewrite Hf, Hd, Hp.
Qed.

Lemma blind_reencode src dst : blind (pil_reencode E src dst).
Proof.
  intros w1 w2 (Hf & Hd & Hp). unfold pil_reencode, result, final. rewrite Hf.
  destruct (files w2 !! src) as [[doc page fmt| |]|]; try done.
  destruct (pil_save_error E src dst); cbn [fst snd]; [done|]. split; [done|].
  unfold same_fs, set_files. cbn [files dirs processes]. by rewrite Hf, Hd, Hp.
Qed.

Lemma blind_zip_open output_file : blind (zip_open E output_file).
Proof.
  intros w1 w2 (Hf & Hd & Hp). unfold zip_open, result, final.
  destruct (zip_open_error E output_file); cbn [fst snd]; [done|].
  split; [done|].
  unfold same_fs, set_files. cbn [files dirs processes]. by rewrite Hf, Hd, Hp.
Qed.

Lemma blind_zip_write output_file src arcname :
  blind (zip_write E output_file src arcname).
Proof.
  intros w1 w2 (Hf & Hd & Hp). unfold zip_write, result, final.
  destruct (zip_write_error E output_file arcname); cbn [fst snd]; [done|].
  rewrite Hf.
  destruct (files w2 !! src) as [c|]; [|done].
  destruct (files w2 !! output_file) as [[| entries|]|]; try done.
  cbn [fst snd]. split; [done|].
  unfold same_fs, set_files. cbn [files dirs processes]. by rewrite Hf, Hd, Hp.
Qed.

Lemma blind_py_int s : blind (py_int s).
Proof. unfold py_int. destruct (Py.int s); [apply blind_ret|apply blind_raise]. Qed.

Ltac blind_step :=
  first
    [ apply blind_ret | apply blind_raise | apply blind_print
    | apply blind_path_exists | apply blind_listdir | apply blind_makedirs
    | apply blind_mkdtemp | apply blind_rmtree | apply blind_remove
    | apply blind_subprocess_run | apply blind_reencode | apply blind_zip_open
    | apply blind_zip_write | apply blind_py_int
    | apply blind_bind; [|intros ?]
    | apply blind_try_except; [|intros ?]
    | apply blind_try_finally
    | match goal with
      | |- blind (let '(_, _) := ?p in _) => destruct p
      | |- blind (if ?b then _ else _) => destruct b
      | |- blind (match ?x with _ => _ end) => destruct x
      end ].

Lemma blind_get_page_count input_file : blind (get_page_count E input_file).
Proof.
  unfold get_page_count, count_with_djvused, count_with_ddjvu.
  repeat blind_step.
Qed.

Lemma blind_extract_page ddjvu input_file output_file page quality :
  blind (extract_page E ddjvu input_file output_file page quality).
Proof. unfold extract_page. repeat blind_step. Qed.

Lemma blind_extract_pages input_file temp_dir quality num_pages pages :
  ∀ successful,
    blind (extract_pages E input_file temp_dir quality num_pages pages
             successful).
Proof.
  induction pages as [|page rest IH]; intros successful; cbn [extract_pages].
  - apply blind_ret.
  - apply blind_bind; [apply blind_print|intros _].
    apply blind_bind; [apply blind_extract_page|intros [|]]; [apply IH|].
    apply blind_bind; [apply blind_print|intros _]. apply IH.
Qed.

Lemma blind_zip_write_all output_file temp_dir names :
  blind (zip_write_all E output_file temp_dir names).
Proof.
  induction names as [|name rest IH]; cbn [zip_write_all]; [apply blind_ret|].
  apply blind_bind; [apply blind_zip_write|intros _; apply IH].
Qed.

Lemma blind_create_cbz output_file temp_dir :
  blind (create_cbz E output_file temp_dir).
Proof.
  unfold create_cbz.
  apply blind_bind; [apply blind_zip_open|intros _].
  apply blind_bind; [apply blind_listdir|intros names].
  apply blind_bind; [apply blind_zip_write_all|intros _]. apply blind_ret.
Qed.

Lemma blind_convert input_file output_file quality :
  blind (convert_djvu_to_cbz E input_file output_file quality).
Proof.
  unfold convert_djvu_to_cbz, convert_body.
  apply blind_bind; [apply blind_print|intros _].
  apply blind_bind; [apply blind_mkdtemp|intros temp_dir].
  apply blind_bind; [apply blind_print|intros _].
  apply blind_try_finally; [|repeat blind_step].
  apply blind_try_except; [|intros e; repeat blind_step].
  apply blind_bind; [apply blind_get_page_count|intros num_pages].
  apply blind_bind; [apply blind_print|intros _].
  apply blind_bind; [apply blind_extract_pages|intros successful].
  destruct (successful =? 0); [repeat blind_step|].
  apply blind_bind; [apply blind_print|intros _].
  apply blind_bind; [apply blind_create_cbz|intros png_files].
  repeat blind_step.
Qed.

Lemma blind_convert_all quality jobs :
  ∀ successful, blind (convert_all E quality jobs successful).
Proof.
  induction jobs as [|[input_file output_file] rest IH]; intros successful;
    cbn [convert_all]; [apply blind_ret|].
  apply blind_bind; [apply blind_convert|intros ok; apply IH].
Qed.

Lemma blind_discover_files input_folder output_folder rel fs :
  ∀ jobs, blind (discover_files input_folder output_folder rel fs jobs).
Proof.
  induction fs as [|file rest IH]; intros jobs; cbn [discover_files];
    [apply blind_ret|].
  destruct (is_djvu file); [|apply IH].
  apply blind_bind; [apply blind_print|intros _].
  apply blind_bind; [apply blind_path_exists|intros there].
  apply blind_bind; [destruct there; repeat blind_step|intros _]. apply IH.
Qed.

Lemma blind_discover input_folder output_folder walk :
  ∀ jobs, blind (discover input_folder output_folder walk jobs).
Proof.
  induction walk as [|[rel fs] rest IH]; intros jobs; cbn [discover];
    [apply blind_ret|].
  apply blind_bind; [apply blind_discover_files|intros found; apply IH].
Qed.

Lemma blind_process_folder_work input_folder output_folder quality max_workers :
  blind (process_folder_work E input_folder output_folder quality max_workers).
Proof.
  unfold process_folder_work.
  apply blind_bind; [apply blind_path_exists|intros input_there].
  destruct (negb input_there); [apply blind_print|].
  apply blind_bind; [apply blind_path_exists|intros output_there].
  apply blind_bind; [destruct output_there; repeat blind_step|intros _].
  apply blind_bind; [apply blind_print|intros _].
  apply blind_bind; [apply blind_discover|intros djvu_files].
  destruct djvu_files as [|job jobs]; [apply blind_print|].
  apply blind_bind; [apply blind_print|intros _].
  apply blind_bind; [apply blind_path_exists|intros ddjvu_there].
  destruct (negb ddjvu_there); [apply blind_print|].
  apply blind_bind; [destruct (pil_importable E); repeat blind_step|intros _].
  apply blind_bind; [destruct (1 <? max_workers)%Z; apply blind_print|intros _].
  apply blind_bind; [apply blind_convert_all|intros successful].
  apply blind_print.
Qed.

Lemma process_folder_banner input_folder output_folder quality max_workers w :
  process_folder E input_folder output_folder quality max_workers w
  = process_folder_work E input_folder (default input_folder output_folder)
      quality max_workers
      (World (files w) (dirs w)
         (banner input_folder output_folder quality max_workers ++ console w)
         (processes w)).
Proof. reflexivity. Qed.

End blind_facts.

(** X20: a sequential run without an output folder does what the run
    with the input folder as output folder does: the same result, files,
    directories and processes.  The two runs differ in what they print
    for the output folder in the banner. *)
Theorem process_folder_default_output (E : Env) (input_folder : string)
    (quality : N) (max_workers : Z) (w : world) :
  (max_workers ≤ 1)%Z →
  let r1 := process_folder E input_folder None quality max_workers w in
  let r2 := process_folder E input_folder (Some input_folder) quality
              max_workers w in
  result r1 = result r2
  ∧ files (final r1) = files (final r2)
  ∧ dirs (final r1) = dirs (final r2)
  ∧ processes (final r1) = processes (final r2).
Proof.
  intros _ r1 r2. subst r1 r2. rewrite !process_folder_banner.
  cbn [default].
  apply (blind_process_folder_work E input_folder input_folder quality
           max_workers).
  done.
Qed.

Lemma process_folder_default_output_witness :
  result (process_folder twin_env "in" None 85 1 ready_world)
  = result (process_folder twin_env "in" (Some "in") 85 1 ready_world).
Proof.
  destruct (process_folder_default_output twin_env "in" 85 1 ready_world)
    as (Hret & _).
  - lia.
  - exact Hret.
Defined.
